(** * Grid-integration test doubles: [TestingModel] and [TestingForecaster]

    A shallow embedding of [idaes/apps/grid_integration/tests/util.py].

    Conventions of the embedding.
    - Python integers are [Z]; the numbers of the model (powers, costs,
      prices) are finite doubles, written as the rationals they are.
      Subtraction and multiplication are those of the doubles: the exact
      result rounded to the nearest double. [round(x, 2)] is the hundredth
      nearest to [x], ties to the even hundredth, and stands for the double
      nearest to it; [float(x)] keeps the value. Infinities and NaN have no
      counterpart: a statement about the result of an operation that can
      overflow says so.
    - A raised exception is a value of [exn]; a call is a [result].
    - A [dict] whose key order is observable (the row dictionary that
      becomes the columns of a data frame) is an association list with
      Python's assignment semantics; a [dict] used only as a mapping is a
      [gmap].
    - A Pyomo block is a record of its components; an expression component
      holds an expression tree that [pyo.value] evaluates against the
      current values of the block. *)

From stdpp Require Import base gmap strings list fin_maps.
From Stdlib Require Import ZArith QArith Qround Qabs Lia Lqa.

Local Open Scope string_scope.
Local Open Scope Z_scope.

(** ** Python values, exceptions and results *)

Inductive pyval : Type :=
| PyNone
| PyStr (s : string)
| PyInt (z : Z)
| PyFloat (q : Q)
| PyNaN.

Inductive exn : Type :=
| TypeError (msg : string)
| IndexError (msg : string)
| KeyError (key : Z)
| ValueError (msg : string)
| RecursionError.

Inductive result (A : Type) : Type :=
| Ok (a : A)
| Raise (e : exn).
Arguments Ok {A} a.
Arguments Raise {A} e.

#[global] Instance result_ret : MRet result := λ A a, Ok a.

#[global] Instance result_bind : MBind result := λ A B k c,
  match c with
  | Ok a => k a
  | Raise e => Raise e
  end.

(** A loop that builds one item per element and stops at the first raise. *)
Fixpoint for_each {A B : Type} (f : A → result B) (l : list A) : result (list B) :=
  match l with
  | [] => Ok []
  | x :: l' => y ← f x; ys ← for_each f l'; Ok (y :: ys)
  end.

(** ** Numbers *)

(** [range(n)]: empty when [n <= 0]. *)
Definition range (n : Z) : list Z := seqZ 0 n.

(** Nearest integer, ties to even. *)
Definition round_half_even (x : Q) : Z :=
  let f := Qfloor x in
  match Qcompare (x - inject_Z f) (1 # 2) with
  | Lt => f
  | Gt => f + 1
  | Eq => if Z.even f then f else f + 1
  end.

(** [round(x, 2)] *)
Definition round2 (x : Q) : Q := Qmake (round_half_even (x * inject_Z 100)) 100.

(** [float(x)] *)
Definition float (x : Q) : Q := x.

(** *** Double precision

    Python floats are IEEE binary64 numbers, and the arithmetic of the
    module is theirs. A rational that is not itself a double (a decimal
    literal, the hundredth that [round2] returns) stands for the double
    nearest to it. *)

(** [2^e] *)
Definition Qpow2 (e : Z) : Q :=
  match e with
  | Z.neg p => 1 # (2 ^ p)
  | _ => inject_Z (2 ^ e)
  end.

(** For [x > 0], the exponent [e] with [2^e <= x < 2^(e+1)]. *)
Definition binade (x : Q) : Z :=
  let e := Z.log2 (Qnum x) - Z.log2 (Z.pos (Qden x)) in
  if Qle_bool (Qpow2 e) x then e else e - 1.

(** The double nearest to [x], ties to the even significand: 53 bits of
    significand, least exponent [-1074]. *)
Definition double_round (x : Q) : Q :=
  if Qeq_bool x 0 then 0%Q
  else
    let ulp := Qpow2 (Z.max (binade (Qabs x) - 52) (-1074)) in
    (inject_Z (round_half_even (x / ulp)) * ulp)%Q.

(** The largest double. An operation whose exact result rounds beyond it
    gives an infinity in Python, which the rationals do not have; within
    it, [double_round] is the result. *)
Definition double_max : Q := inject_Z (2 ^ 1024 - 2 ^ 971).

Definition in_double_range (x : Q) : Prop := (Qabs x <= double_max)%Q.

(** [x - y] and [x * y] on floats *)
Definition fsub (x y : Q) : Q := double_round (double_round x - double_round y).
Definition fmul (x y : Q) : Q := double_round (double_round x * double_round y).

(** The operation stays within the doubles. *)
Definition fsub_finite (x y : Q) : Prop :=
  in_double_range (double_round x - double_round y).
Definition fmul_finite (x y : Q) : Prop :=
  in_double_range (double_round x * double_round y).

(** [seq[-1]] *)
Definition last_item (l : list Q) : result Q :=
  match last l with
  | Some x => Ok x
  | None => Raise (IndexError "list index out of range")
  end.

(** ** Dictionaries *)

(** [{k: rule(k) for k in keys}], also the shape of a Pyomo component
    indexed by a set and initialised by a rule. *)
Definition dict_comp {A : Type} (rule : Z → A) (keys : list Z) : gmap Z A :=
  list_to_map ((λ k, (k, rule k)) <$> keys).

(** Insertion-ordered dictionary: [d[k] = v] replaces the value of an
    existing key in place and appends a new key at the end. *)
Fixpoint dict_set (k : string) (v : pyval) (d : list (string * pyval))
  : list (string * pyval) :=
  match d with
  | [] => [(k, v)]
  | (k', v') :: d' =>
      if decide (k' = k) then (k, v) :: d' else (k', v') :: dict_set k v d'
  end.

Fixpoint dict_get (k : string) (d : list (string * pyval)) : option pyval :=
  match d with
  | [] => None
  | (k', v') :: d' => if decide (k' = k) then Some v' else dict_get k d'
  end.

Definition keys (d : list (string * pyval)) : list string := d.*1.
Definition values (d : list (string * pyval)) : list pyval := d.*2.

(** [for key in kwargs: d[key] = kwargs[key]], the dictionary [kwargs]
    being the list of its items. *)
Definition add_kwargs (d kwargs : list (string * pyval)) : list (string * pyval) :=
  foldl (λ d kv, dict_set kv.1 kv.2 d) d kwargs.

(** ** pandas

    The part of the data-frame library that the module calls. A frame is
    its column labels and its rows; the row index is never written out
    ([to_csv(..., index=False)]) and is left out. *)

Module pd.

Record DataFrame : Type := mk { columns : list string; rows : list (list pyval) }.

(** [DataFrame.from_dict(d, orient="index").T]: the keys of [d], in
    insertion order, become the columns of a frame with the single row of
    the values of [d]. *)
Definition from_dict_index_T (d : list (string * pyval)) : DataFrame :=
  mk (keys d) [values d].

Fixpoint position (c : string) (cols : list string) : option nat :=
  match cols with
  | [] => None
  | c' :: cols' => if decide (c' = c) then Some O else S <$> position c cols'
  end.

Definition add_column (acc : list string) (c : string) : list string :=
  if decide (c ∈ acc) then acc else acc ++ [c].

(** Outer join of the column labels, in order of first appearance. *)
Definition union_columns (fs : list DataFrame) : list string :=
  foldl add_column [] (mjoin (columns <$> fs)).

(** The rows of [f] laid out on the columns [cols]; a column that [f]
    lacks is filled with NaN. *)
Definition reindex (cols : list string) (f : DataFrame) : list (list pyval) :=
  (λ r, (λ c, match position c (columns f) with
              | Some i => default PyNaN (r !! i)
              | None => PyNaN
              end) <$> cols) <$> rows f.

(** [pd.concat(frames)] along the rows. *)
Definition concat (fs : list DataFrame) : result DataFrame :=
  match fs with
  | [] => Raise (ValueError "No objects to concatenate")
  | _ :: _ =>
      let cols := union_columns fs in
      Ok (mk cols (mjoin (reindex cols <$> fs)))
  end.

(** The cell of [row], a row of [f], under the column [c]. *)
Definition cell (f : DataFrame) (row : list pyval) (c : string) : option pyval :=
  position c (columns f) ≫= λ i, row !! i.

(** [df.to_csv(path, index=False)]: the header line and the data lines,
    as cells. *)
Definition to_csv (f : DataFrame) : list string * list (list pyval) :=
  (columns f, rows f).

End pd.

(** ** Pyomo

    The block that [populate_model] fills, and [pyo.value]. *)

Module pyo.

(** [pyo.Var] data: current value and bounds. *)
Record VarData : Type := mkVar { var_value : Q; lb : Q; ub : Q }.

Inductive scalar_param : Type := marginal_cost_ | Pmax_ | Pmin_ | pre_P_T_.

Inductive indexed_expression : Type := prod_cost_approx_ | tot_cost_.

(** Expression trees over the components of the block. *)
Inductive expr : Type :=
| Var_ (h : Z)                                    (* b.P_T[h] *)
| Param_ (p : scalar_param)                       (* b.marginal_cost, b.pre_P_T, ... *)
| Expression_ (n : indexed_expression) (h : Z)    (* b.prod_cost_approx[h], b.tot_cost[h] *)
| Product (e1 e2 : expr)
| Difference (e1 e2 : expr).

Record Block : Type := mkBlock {
  HOUR : list Z;
  marginal_cost : Q;
  Pmax : Q;
  Pmin : Q;
  pre_P_T : Q;
  P_T : gmap Z VarData;
  prod_cost_approx : gmap Z expr;
  tot_cost : gmap Z expr;
}.

Definition param_value (b : Block) (p : scalar_param) : Q :=
  match p with
  | marginal_cost_ => marginal_cost b
  | Pmax_ => Pmax b
  | Pmin_ => Pmin b
  | pre_P_T_ => pre_P_T b
  end.

Definition expression (b : Block) (n : indexed_expression) : gmap Z expr :=
  match n with
  | prod_cost_approx_ => prod_cost_approx b
  | tot_cost_ => tot_cost b
  end.

(** Evaluation; [depth] bounds the chain of named expressions followed. *)
Fixpoint value_rec (depth : nat) (b : Block) : expr → result Q :=
  fix go (e : expr) : result Q :=
    match e with
    | Var_ h =>
        match P_T b !! h with
        | Some v => Ok (var_value v)
        | None => Raise (KeyError h)
        end
    | Param_ p => Ok (param_value b p)
    | Expression_ n h =>
        match expression b n !! h with
        | Some e' =>
            match depth with
            | O => Raise RecursionError
            | S d => value_rec d b e'
            end
        | None => Raise (KeyError h)
        end
    | Product e1 e2 => x ← go e1; y ← go e2; Ok (fmul x y)
    | Difference e1 e2 => x ← go e1; y ← go e2; Ok (fsub x y)
    end.

(** [pyo.value(e)]. A chain of named expressions without a cycle is no
    longer than the number of named expressions of the block. *)
Definition value (b : Block) (e : expr) : result Q :=
  value_rec (size (prod_cost_approx b) + size (tot_cost b)) b e.

(** [b.pre_P_T = v] on the mutable parameter. *)
Definition set_pre_P_T (b : Block) (v : Q) : Block :=
  mkBlock (HOUR b) (marginal_cost b) (Pmax b) (Pmin b) v
          (P_T b) (prod_cost_approx b) (tot_cost b).

(** [b.P_T[h].value = v], as a solver does when it loads a solution.
    The index must be one of the variable. *)
Definition set_var_value (b : Block) (h : Z) (v : Q) : Block :=
  mkBlock (HOUR b) (marginal_cost b) (Pmax b) (Pmin b) (pre_P_T b)
          (alter (λ d, mkVar v (lb d) (ub d)) h (P_T b))
          (prod_cost_approx b) (tot_cost b).

End pyo.

(** ** Generator model data *)

(** Modelled from the spec: the thermal-generator descriptor class
    [ThermalGeneratorModelData] is imported from
    [idaes.apps.grid_integration.model_data], which is not among the source
    files. Only the four attributes that [TestingModel.__init__] reads are
    kept. The constructor of the class accepts the production cost bids
    only as a list of (power, marginal cost) pairs that is not empty, so
    [p_cost] always has a first pair. *)
Record ThermalGeneratorModelData : Type := mkThermal {
  gen_name : string;
  p_min : Q;
  p_max : Q;
  p_cost_first : Q * Q;
  p_cost_rest : list (Q * Q);
}.

Definition p_cost (d : ThermalGeneratorModelData) : list (Q * Q) :=
  p_cost_first d :: p_cost_rest d.

(** What a caller may pass as [model_data]. *)
Inductive pyobject : Type :=
| Thermal (d : ThermalGeneratorModelData)
| Other (v : pyval).

(** [isinstance(o, ThermalGeneratorModelData)] *)
Definition isinstance_Thermal (o : pyobject) : bool :=
  match o with
  | Thermal _ => true
  | Other _ => false
  end.

(** ** TestingModel *)

Module TestingModel.

Record t : Type := mk {
  _model_data : ThermalGeneratorModelData;
  generator : string;
  result_list : list pd.DataFrame;
  pmin : Q;
  pmax : Q;
  marginal_cost : Q;
}.

Definition model_data (self : t) : ThermalGeneratorModelData := _model_data self.

Definition __init__ (model_data : pyobject) : result t :=
  match model_data with
  | Other _ =>
      Raise (TypeError "model_data must be an instance of ThermalGeneratorModelData.")
  | Thermal md =>
      match p_cost md with
      | [] => Raise (IndexError "list index out of range")
      | pair0 :: _ =>
          Ok (mk md (gen_name md) [] (p_min md) (p_max md) (snd pair0))
      end
  end.

Definition prod_cost_fun (h : Z) : pyo.expr :=
  pyo.Product (pyo.Var_ h) (pyo.Param_ pyo.marginal_cost_).

Definition tot_cost_fun (h : Z) : pyo.expr :=
  pyo.Expression_ pyo.prod_cost_approx_ h.

(** The block [b] handed in is a fresh one; the result is [b] with its
    components added. *)
Definition populate_model (self : t) (horizon : Z) : pyo.Block :=
  let HOUR := range horizon in
  pyo.mkBlock
    HOUR
    (marginal_cost self)
    (pmax self)
    (pmin self)
    (pmin self)
    (dict_comp (λ _, pyo.mkVar (pmin self) (pmin self) (pmax self)) HOUR)
    (dict_comp prod_cost_fun HOUR)
    (dict_comp tot_cost_fun HOUR).

Definition _update_power (b : pyo.Block) (implemented_power_output : list Q)
  : result pyo.Block :=
  x ← last_item implemented_power_output;
  Ok (pyo.set_pre_P_T b (round2 x)).

Definition update_model (self : t) (b : pyo.Block) (implemented_power_output : list Q)
  : result pyo.Block :=
  _update_power b implemented_power_output.

Definition get_implemented_profile (b : pyo.Block) (last_implemented_time_step : Z)
  : result (gmap string (list Q)) :=
  implemented_power_output ←
    for_each (λ t, pyo.value b (pyo.Var_ t)) (range (last_implemented_time_step + 1));
  Ok {[ "implemented_power_output" := implemented_power_output ]}.

Definition get_last_delivered_power (b : pyo.Block) (last_implemented_time_step : Z)
  : result Q :=
  pyo.value b (pyo.Var_ last_implemented_time_step).

(** The body of the loop of [record_results]: the one-row frame of step [t]. *)
Definition record_row (self : t) (b : pyo.Block) (date hour : pyval)
    (kwargs : list (string * pyval)) (t : Z) : result pd.DataFrame :=
  let result_dict := [] in
  let result_dict := dict_set "Generator" (PyStr (generator self)) result_dict in
  let result_dict := dict_set "Date" date result_dict in
  let result_dict := dict_set "Hour" hour result_dict in
  let result_dict := dict_set "Horizon [hr]" (PyInt t) result_dict in
  power ← pyo.value b (pyo.Var_ t);
  let result_dict :=
    dict_set "Thermal Power Generated [MW]" (PyFloat (float (round2 power))) result_dict in
  prod ← pyo.value b (pyo.Expression_ pyo.prod_cost_approx_ t);
  let result_dict :=
    dict_set "Production Cost [$]" (PyFloat (float (round2 prod))) result_dict in
  tot ← pyo.value b (pyo.Expression_ pyo.tot_cost_ t);
  let result_dict :=
    dict_set "Total Cost [$]" (PyFloat (float (round2 tot))) result_dict in
  change ←
    (if decide (t = 0)
     then pyo.value b (pyo.Difference (pyo.Var_ t) (pyo.Param_ pyo.pre_P_T_))
     else pyo.value b (pyo.Difference (pyo.Var_ t) (pyo.Var_ (t - 1))));
  let result_dict :=
    dict_set "Mileage [MW]" (PyFloat (float (round2 (Qabs change)))) result_dict in
  let result_dict := add_kwargs result_dict kwargs in
  Ok (pd.from_dict_index_T result_dict).

(** The frame that a call stores. *)
Definition record_frame (self : t) (b : pyo.Block) (date hour : pyval)
    (kwargs : list (string * pyval)) : result pd.DataFrame :=
  df_list ← for_each (record_row self b date hour kwargs) (pyo.HOUR b);
  pd.concat df_list.

(** [record_results]: the object after the call. The append is the last
    statement, so a call that raises leaves the object as it was. *)
Definition record_results (self : t) (b : pyo.Block) (date hour : pyval)
    (kwargs : list (string * pyval)) : result t :=
  frame ← record_frame self b date hour kwargs;
  Ok (mk (_model_data self) (generator self) (result_list self ++ [frame])
         (pmin self) (pmax self) (marginal_cost self)).

(** [write_results]: what is written to [path]. *)
Definition write_results (self : t) : result (list string * list (list pyval)) :=
  frame ← pd.concat (result_list self);
  Ok (pd.to_csv frame).

Definition power_output (self : t) : string := "P_T".

Definition total_cost (self : t) : string * Z := ("tot_cost", 1).

(** The calls a client can make on a constructed object. *)
Inductive call : Type :=
| call_model_data
| call_populate_model (horizon : Z)
| call_update_model (b : pyo.Block) (implemented_power_output : list Q)
| call_get_implemented_profile (b : pyo.Block) (last_implemented_time_step : Z)
| call_get_last_delivered_power (b : pyo.Block) (last_implemented_time_step : Z)
| call_record_results (b : pyo.Block) (date hour : pyval) (kwargs : list (string * pyval))
| call_write_results
| call_power_output
| call_total_cost.

(** The object after a call, in short; [Stateful.exec] below runs the
    bodies of the methods and leaves this object. *)
Definition after (self : t) (c : call) : t :=
  match c with
  | call_record_results b date hour kwargs =>
      match record_results self b date hour kwargs with
      | Ok self' => self'
      | Raise _ => self
      end
  | _ => self
  end.

End TestingModel.

(** ** The methods as programs over the object

    The methods once more, as the statements of their bodies act on the
    attributes of [self]: a program takes the object and gives the object
    it leaves with what it returns or raises. [getattr] reads an
    attribute, [result_list_append] is [self.result_list.append], and
    nothing else writes. Static methods do not see [self]. *)

Module Stateful.

Definition M (A : Type) : Type := TestingModel.t → TestingModel.t * result A.

#[global] Instance M_ret : MRet M := λ A a self, (self, Ok a).

#[global] Instance M_bind : MBind M := λ A B k m self,
  match m self with
  | (self', Ok a) => k a self'
  | (self', Raise e) => (self', Raise e)
  end.

(** [self.attr] *)
Definition getattr {A : Type} (attr : TestingModel.t → A) : M A :=
  λ self, (self, Ok (attr self)).

(** A computation that does not touch the object. *)
Definition pure {A : Type} (r : result A) : M A := λ self, (self, r).

(** [self.result_list.append(frame)] *)
Definition result_list_append (frame : pd.DataFrame) : M unit :=
  λ self,
    (TestingModel.mk (TestingModel._model_data self) (TestingModel.generator self)
       (TestingModel.result_list self ++ [frame])
       (TestingModel.pmin self) (TestingModel.pmax self)
       (TestingModel.marginal_cost self),
     Ok ()).

Fixpoint for_each {A B : Type} (f : A → M B) (l : list A) : M (list B) :=
  match l with
  | [] => mret []
  | x :: l' => y ← f x; ys ← for_each f l'; mret (y :: ys)
  end.

Definition model_data : M ThermalGeneratorModelData :=
  getattr TestingModel._model_data.

Definition populate_model (horizon : Z) : M pyo.Block :=
  let HOUR := range horizon in
  marginal_cost ← getattr TestingModel.marginal_cost;
  Pmax ← getattr TestingModel.pmax;
  Pmin ← getattr TestingModel.pmin;
  pre_P_T ← getattr TestingModel.pmin;
  initial ← getattr TestingModel.pmin;
  lower ← getattr TestingModel.pmin;
  upper ← getattr TestingModel.pmax;
  mret (pyo.mkBlock HOUR marginal_cost Pmax Pmin pre_P_T
          (dict_comp (λ _, pyo.mkVar initial lower upper) HOUR)
          (dict_comp TestingModel.prod_cost_fun HOUR)
          (dict_comp TestingModel.tot_cost_fun HOUR)).

Definition update_model (b : pyo.Block) (implemented_power_output : list Q)
  : M pyo.Block :=
  pure (TestingModel._update_power b implemented_power_output).

Definition get_implemented_profile (b : pyo.Block) (last_implemented_time_step : Z)
  : M (gmap string (list Q)) :=
  pure (TestingModel.get_implemented_profile b last_implemented_time_step).

Definition get_last_delivered_power (b : pyo.Block) (last_implemented_time_step : Z)
  : M Q :=
  pure (TestingModel.get_last_delivered_power b last_implemented_time_step).

(** The body of the loop: it reads [self.generator]. *)
Definition record_row (b : pyo.Block) (date hour : pyval)
    (kwargs : list (string * pyval)) (t : Z) : M pd.DataFrame :=
  λ self, (self, TestingModel.record_row self b date hour kwargs t).

Definition record_results (b : pyo.Block) (date hour : pyval)
    (kwargs : list (string * pyval)) : M unit :=
  df_list ← for_each (record_row b date hour kwargs) (pyo.HOUR b);
  frame ← pure (pd.concat df_list);
  result_list_append frame.

Definition write_results : M (list string * list (list pyval)) :=
  result_list ← getattr TestingModel.result_list;
  frame ← pure (pd.concat result_list);
  mret (pd.to_csv frame).

Definition power_output : M string := mret "P_T".

Definition total_cost : M (string * Z) := mret ("tot_cost", 1).

(** What a call gives back. *)
Inductive returned : Type :=
| RNone
| RData (d : ThermalGeneratorModelData)
| RBlock (b : pyo.Block)
| RProfile (p : gmap string (list Q))
| RNumber (q : Q)
| RTable (header : list string) (lines : list (list pyval))
| RString (s : string)
| RNameIndex (s : string) (i : Z).

Definition exec (c : TestingModel.call) : M returned :=
  match c with
  | TestingModel.call_model_data => d ← model_data; mret (RData d)
  | TestingModel.call_populate_model horizon =>
      b ← populate_model horizon; mret (RBlock b)
  | TestingModel.call_update_model b ipo => b' ← update_model b ipo; mret (RBlock b')
  | TestingModel.call_get_implemented_profile b k =>
      p ← get_implemented_profile b k; mret (RProfile p)
  | TestingModel.call_get_last_delivered_power b k =>
      q ← get_last_delivered_power b k; mret (RNumber q)
  | TestingModel.call_record_results b date hour kwargs =>
      _ ← record_results b date hour kwargs; mret RNone
  | TestingModel.call_write_results =>
      out ← write_results; mret (RTable out.1 out.2)
  | TestingModel.call_power_output => s ← power_output; mret (RString s)
  | TestingModel.call_total_cost => si ← total_cost; mret (RNameIndex si.1 si.2)
  end.

End Stateful.

(** The columns that every row starts with. *)
Definition fixed_columns : list string :=
  [ "Generator"; "Date"; "Hour"; "Horizon [hr]"; "Thermal Power Generated [MW]";
    "Production Cost [$]"; "Total Cost [$]"; "Mileage [MW]" ].

(** The blocks that a client meets: built by [populate_model], then
    changed by a solver writing values of [P_T] and by [update_model]. *)
Inductive built_by (self : TestingModel.t) (horizon : Z) : pyo.Block → Prop :=
| built_populate :
    built_by self horizon (TestingModel.populate_model self horizon)
| built_solve b h v :
    built_by self horizon b → h ∈ pyo.HOUR b →
    built_by self horizon (pyo.set_var_value b h v)
| built_update b ipo b' :
    built_by self horizon b → TestingModel.update_model self b ipo = Ok b' →
    built_by self horizon b'.

(** What [populate_model] establishes and the later changes keep. *)
Record block_inv (self : TestingModel.t) (horizon : Z) (b : pyo.Block) : Prop := {
  inv_HOUR : pyo.HOUR b = range horizon;
  inv_marginal_cost : pyo.marginal_cost b = TestingModel.marginal_cost self;
  inv_Pmax : pyo.Pmax b = TestingModel.pmax self;
  inv_Pmin : pyo.Pmin b = TestingModel.pmin self;
  inv_P_T_dom : ∀ h, is_Some (pyo.P_T b !! h) ↔ h ∈ range horizon;
  inv_P_T_bounds : ∀ h v, pyo.P_T b !! h = Some v →
    pyo.lb v = TestingModel.pmin self ∧ pyo.ub v = TestingModel.pmax self;
  inv_prod_cost_approx :
    pyo.prod_cost_approx b = dict_comp TestingModel.prod_cost_fun (range horizon);
  inv_tot_cost :
    pyo.tot_cost b = dict_comp TestingModel.tot_cost_fun (range horizon);
}.

(** A frame laid out on the columns [cols]. *)
Definition frame_on (cols : list string) (f : pd.DataFrame) : Prop :=
  pd.columns f = cols ∧ Forall (λ r, length r = length cols) (pd.rows f).

(** The row dictionary of [record_results] before the keyword fields are
    added, from the values read off the block. *)
Definition row_before_kwargs (generator : string) (date hour : pyval) (t : Z)
    (power prod tot change : Q) : list (string * pyval) :=
  [ ("Generator", PyStr generator); ("Date", date); ("Hour", hour);
    ("Horizon [hr]", PyInt t);
    ("Thermal Power Generated [MW]", PyFloat (float (round2 power)));
    ("Production Cost [$]", PyFloat (float (round2 prod)));
    ("Total Cost [$]", PyFloat (float (round2 tot)));
    ("Mileage [MW]", PyFloat (float (round2 (Qabs change)))) ].

(** The value that the mileage of step [t] is computed from: the power of
    the step before, or [pre_P_T] at the first step. *)
Definition previous_power (b : pyo.Block) (t : Z) (prev : Q) : Prop :=
  if decide (t = 0) then prev = pyo.pre_P_T b
  else ∃ pp, pyo.P_T b !! (t - 1) = Some pp ∧ prev = pyo.var_value pp.

(** The row that [record_results] stores for step [t], given the power
    [pt] of the step and the power [prev] it is compared with. *)
Definition recorded_row (self : TestingModel.t) (b : pyo.Block) (date hour : pyval)
    (kwargs : list (string * pyval)) (t : Z) (pt prev : Q) : list pyval :=
  values
    (add_kwargs
       (row_before_kwargs (TestingModel.generator self) date hour t
          pt (fmul pt (pyo.marginal_cost b)) (fmul pt (pyo.marginal_cost b))
          (fsub pt prev))
       kwargs).

(** The rows of a stored frame against the steps of the block. *)
Definition rows_of_steps (self : TestingModel.t) (b : pyo.Block) (date hour : pyval)
    (kwargs : list (string * pyval)) (rows : list (list pyval)) : Prop :=
  Forall2
    (λ t row, ∃ pt prev,
       pyo.P_T b !! t = Some pt
       ∧ previous_power b t prev
       ∧ row = recorded_row self b date hour kwargs t (pyo.var_value pt) prev)
    (pyo.HOUR b) rows.

(** The columns of a stored frame. *)
Definition recorded_columns (kwargs : list (string * pyval)) : list string :=
  foldl pd.add_column fixed_columns (keys kwargs).

(** The objects whose stored frames all come from calls of
    [record_results] on built blocks with the keyword fields [ks]. *)
Inductive recorded_with (ks : list string) : TestingModel.t → Prop :=
| recorded_fresh self :
    TestingModel.result_list self = [] → recorded_with ks self
| recorded_call self horizon b date hour kwargs self' :
    recorded_with ks self → built_by self horizon b → keys kwargs = ks →
    TestingModel.record_results self b date hour kwargs = Ok self' →
    recorded_with ks self'.

(** A mapping of [n_samples] scenarios, keyed [0 .. n_samples-1], each a
    list of [horizon] copies of [price]. *)
Definition scenarios_of (horizon n_samples : Z) (price : Q) (m : gmap Z (list Q)) : Prop :=
  Z.of_nat (size m) = n_samples
  ∧ (∀ i, is_Some (m !! i) ↔ 0 ≤ i < n_samples)
  ∧ (∀ i l, m !! i = Some l →
       Z.of_nat (length l) = horizon ∧ ∀ x, x ∈ l → x = price).

(** The test fixture. *)
Definition testing_model_data : ThermalGeneratorModelData :=
  mkThermal "10_STEAM" 30 76 (30, 30)%Q [(45.3, 30); (60.7, 30); (76, 30)]%Q.

Definition tracking_horizon : Z := 4.

(** [TestingModel(model_data=testing_model_data)], once constructed. *)
Definition testing_model : TestingModel.t :=
  TestingModel.mk testing_model_data "10_STEAM" [] 30 76 30.

(** ** TestingForecaster *)

Module TestingForecaster.

Record t : Type := mk { prediction : Q }.

Definition __init__ (prediction : Q) : t := mk prediction.

Definition _forecast (self : t) (horizon n_samples : Z) (prediction : Q)
  : gmap Z (list Q) :=
  dict_comp (λ _, replicate (Z.to_nat horizon) prediction) (range n_samples).

Definition forecast_real_time_prices
    (self : t) (date hour bus : pyval) (horizon n_samples : Z) : gmap Z (list Q) :=
  _forecast self horizon n_samples 0%Q.

Definition forecast_day_ahead_prices
    (self : t) (date hour bus : pyval) (horizon n_samples : Z) : gmap Z (list Q) :=
  _forecast self horizon n_samples (prediction self).

Definition forecast_day_ahead_and_real_time_prices
    (self : t) (date hour bus : pyval) (horizon n_samples : Z)
  : gmap Z (list Q) * gmap Z (list Q) :=
  let rt_forecast := forecast_real_time_prices self date hour bus horizon n_samples in
  let da_forecast := forecast_day_ahead_prices self date hour bus horizon n_samples in
  (da_forecast, rt_forecast).

Definition make_testing_forecaster : t := __init__ 30%Q.

Definition fetch_hourly_stats_from_prescient (self : t) (prescient_hourly_stats : pyval)
  : pyval := PyNone.

Definition fetch_day_ahead_stats_from_prescient
    (self : t) (uc_date uc_hour day_ahead_result : pyval) : pyval := PyNone.

End TestingForecaster.

(** The objects a client can hold: constructed from a thermal-generator
    descriptor, then used through any calls. *)
Inductive reached : TestingModel.t → Prop :=
| reached_init md self :
    TestingModel.__init__ (Thermal md) = Ok self → reached self
| reached_call self c :
    reached self → reached (TestingModel.after self c).

(** * Properties *)

Lemma lookup_dict_comp {A : Type} (rule : Z → A) (ks : list Z) (k : Z) :
  dict_comp rule ks !! k = if decide (k ∈ ks) then Some (rule k) else None.
Proof.
  unfold dict_comp. induction ks as [|x ks IH].
  - simpl. rewrite lookup_empty. destruct (decide (k ∈ [])) as [H|H]; [|done].
    by apply elem_of_nil in H.
  - rewrite fmap_cons, list_to_map_cons. simpl fst; simpl snd.
    destruct (decide (x = k)) as [->|Hx].
    + rewrite lookup_insert_eq. rewrite decide_True; [done | left].
    + rewrite lookup_insert_ne by done. rewrite IH.
      destruct (decide (k ∈ ks)) as [H|H].
      * rewrite decide_True; [done | by right].
      * rewrite decide_False; [done |]. intros [->|?]%elem_of_cons; done.
Qed.

Lemma elem_of_range (n k : Z) : k ∈ range n ↔ 0 ≤ k < n.
Proof. unfold range. rewrite elem_of_seqZ. lia. Qed.

Lemma size_dict_comp_range {A : Type} (rule : Z → A) (n : Z) :
  size (dict_comp rule (range n)) = Z.to_nat n.
Proof.
  unfold dict_comp, range.
  rewrite <- (length_seqZ 0 n).
  generalize (NoDup_seqZ 0 n). generalize (seqZ 0 n) as l.
  induction l as [|x l IH]; intros Hnd.
  - apply map_size_empty.
  - inversion Hnd as [|? ? Hx Hl]; subst.
    rewrite fmap_cons, list_to_map_cons. simpl fst; simpl snd.
    rewrite map_size_insert_None; [simpl; by rewrite IH|].
    apply not_elem_of_list_to_map_1. rewrite <- list_fmap_compose.
    by rewrite (list_fmap_ext _ id l), list_fmap_id.
Qed.

(** ** Evaluation of expressions *)

Lemma value_rec_Var d b h :
  pyo.value_rec d b (pyo.Var_ h) =
  match pyo.P_T b !! h with
  | Some v => Ok (pyo.var_value v)
  | None => Raise (KeyError h)
  end.
Proof. by destruct d. Qed.

Lemma value_Var b h :
  pyo.value b (pyo.Var_ h) =
  match pyo.P_T b !! h with
  | Some v => Ok (pyo.var_value v)
  | None => Raise (KeyError h)
  end.
Proof. apply value_rec_Var. Qed.

Lemma value_Difference b e1 e2 :
  pyo.value b (pyo.Difference e1 e2) =
  (x ← pyo.value b e1; y ← pyo.value b e2; Ok (fsub x y)).
Proof. unfold pyo.value. by destruct (_ + _)%nat. Qed.

Lemma value_Param b p : pyo.value b (pyo.Param_ p) = Ok (pyo.param_value b p).
Proof. unfold pyo.value. by destruct (_ + _)%nat. Qed.

Lemma lookup_dict_comp_range {A : Type} (rule : Z → A) (n h : Z) :
  h ∈ range n → dict_comp rule (range n) !! h = Some (rule h).
Proof. intros Hh. rewrite lookup_dict_comp. by rewrite decide_True. Qed.

Section built_blocks.
Context (self : TestingModel.t) (horizon : Z).

Lemma populate_model_inv : block_inv self horizon (TestingModel.populate_model self horizon).
Proof.
  split; simpl; try done.
  - intros h. rewrite lookup_dict_comp.
    destruct (decide (h ∈ range horizon)) as [Hh|Hh]; split; try done.
  - intros h v. rewrite lookup_dict_comp. case_decide; [|done].
    by intros [= <-].
Qed.

Lemma set_var_value_inv b h v :
  block_inv self horizon b → block_inv self horizon (pyo.set_var_value b h v).
Proof.
  intros [? ? ? ? Hdom Hbd ? ?]. split; simpl; try done.
  - intros k. rewrite lookup_alter_is_Some. apply Hdom.
  - intros k w. rewrite lookup_alter_Some.
    intros [[-> (w' & Hw' & ->)]|[_ Hw]]; simpl; eauto.
Qed.

Lemma update_model_inv b ipo b' :
  block_inv self horizon b → TestingModel.update_model self b ipo = Ok b' →
  block_inv self horizon b'.
Proof.
  unfold TestingModel.update_model, TestingModel._update_power.
  intros [? ? ? ? ? ? ? ?]. destruct (last_item ipo) as [x|e]; [|done].
  intros [= <-]. by split.
Qed.

Lemma built_by_inv b : built_by self horizon b → block_inv self horizon b.
Proof.
  induction 1 as [|b h v _ IH _|b ipo b' _ IH Hupd].
  - apply populate_model_inv.
  - by apply set_var_value_inv.
  - by eapply update_model_inv.
Qed.

Context (b : pyo.Block) (Hinv : block_inv self horizon b).

Lemma inv_P_T_lookup h : h ∈ pyo.HOUR b → ∃ v, pyo.P_T b !! h = Some v.
Proof. rewrite (inv_HOUR _ _ _ Hinv). intros Hh. by apply (inv_P_T_dom _ _ _ Hinv). Qed.

Lemma inv_depth h : h ∈ pyo.HOUR b →
  ∃ d, (size (pyo.prod_cost_approx b) + size (pyo.tot_cost b))%nat = S (S d).
Proof.
  rewrite (inv_HOUR _ _ _ Hinv), (inv_prod_cost_approx _ _ _ Hinv), (inv_tot_cost _ _ _ Hinv).
  rewrite !size_dict_comp_range. intros Hh%elem_of_range.
  exists (Z.to_nat horizon - 1 + (Z.to_nat horizon - 1))%nat. lia.
Qed.

Lemma value_prod_cost_approx h v :
  h ∈ pyo.HOUR b → pyo.P_T b !! h = Some v →
  pyo.value b (pyo.Expression_ pyo.prod_cost_approx_ h) =
  Ok (fmul (pyo.var_value v) (pyo.marginal_cost b)).
Proof.
  intros Hh Hv. destruct (inv_depth h Hh) as [d Hd].
  unfold pyo.value. rewrite Hd. simpl.
  rewrite (inv_prod_cost_approx _ _ _ Hinv).
  rewrite lookup_dict_comp_range by (by rewrite <- (inv_HOUR _ _ _ Hinv)).
  simpl. by rewrite Hv.
Qed.

Lemma value_tot_cost h :
  h ∈ pyo.HOUR b →
  pyo.value b (pyo.Expression_ pyo.tot_cost_ h) =
  pyo.value b (pyo.Expression_ pyo.prod_cost_approx_ h).
Proof.
  intros Hh. destruct (inv_depth h Hh) as [d Hd].
  destruct (inv_P_T_lookup h Hh) as [v Hv].
  rewrite (value_prod_cost_approx h v Hh Hv).
  unfold pyo.value. rewrite Hd. simpl.
  rewrite (inv_tot_cost _ _ _ Hinv).
  rewrite lookup_dict_comp_range by (by rewrite <- (inv_HOUR _ _ _ Hinv)).
  simpl. rewrite (inv_prod_cost_approx _ _ _ Hinv).
  rewrite lookup_dict_comp_range by (by rewrite <- (inv_HOUR _ _ _ Hinv)).
  destruct d; simpl; by rewrite Hv.
Qed.

End built_blocks.

(** ** The forecaster *)

Lemma _forecast_scenarios self (horizon n_samples : Z) price :
  0 ≤ horizon → 0 ≤ n_samples →
  scenarios_of horizon n_samples price
    (TestingForecaster._forecast self horizon n_samples price).
Proof.
  intros Hh Hn. unfold TestingForecaster._forecast. split; [|split].
  - rewrite size_dict_comp_range. lia.
  - intros i. rewrite lookup_dict_comp, <- elem_of_range.
    case_decide; split; done.
  - intros i l. rewrite lookup_dict_comp. case_decide; [|done].
    intros [= <-]. rewrite length_replicate. split; [lia|].
    intros x Hx. by apply elem_of_replicate in Hx as [-> _].
Qed.

(** C3, as stated, fails: with prediction 30 the real-time forecast of one
    scenario over one step is the list [[0]], whose element is not the
    prediction. *)
Lemma real_time_forecast_ignores_prediction :
  ∃ l, TestingForecaster.forecast_real_time_prices
         TestingForecaster.make_testing_forecaster PyNone PyNone PyNone 1 1 !! 0 = Some l
       ∧ ¬ Forall (λ x, x == TestingForecaster.prediction
                             TestingForecaster.make_testing_forecaster)%Q l.
Proof.
  exists [0%Q]. split; [by vm_compute|].
  intros H. apply Forall_cons in H as [H _]. by vm_compute in H.
Qed.

(** C3, amended: for every date, hour, bus, horizon >= 0 and
    n_samples >= 0, each forecast method returns a mapping with exactly
    n_samples scenario entries, keyed 0 .. n_samples-1, each a list of
    length horizon; the day-ahead entries are filled with the forecaster's
    prediction and the real-time entries with the constant 0. *)
Theorem forecast_scenarios self date hour bus (horizon n_samples : Z) :
  0 ≤ horizon → 0 ≤ n_samples →
  scenarios_of horizon n_samples (TestingForecaster.prediction self)
    (TestingForecaster.forecast_day_ahead_prices self date hour bus horizon n_samples)
  ∧ scenarios_of horizon n_samples 0%Q
    (TestingForecaster.forecast_real_time_prices self date hour bus horizon n_samples).
Proof. intros Hh Hn. split; by apply _forecast_scenarios. Qed.

Lemma forecast_scenarios_witness :
  scenarios_of 4 10 30%Q
    (TestingForecaster.forecast_day_ahead_prices
       TestingForecaster.make_testing_forecaster PyNone (PyInt 0) (PyStr "bus5") 4 10)
  ∧ scenarios_of 4 10 0%Q
    (TestingForecaster.forecast_real_time_prices
       TestingForecaster.make_testing_forecaster PyNone (PyInt 0) (PyStr "bus5") 4 10).
Proof.
  apply (forecast_scenarios TestingForecaster.make_testing_forecaster
           PyNone (PyInt 0) (PyStr "bus5") 4 10); lia.
Defined.

(** C10: the real-time forecast is filled entirely with the constant 0,
    whatever prediction the forecaster stores, and
    forecast_day_ahead_and_real_time_prices returns the pair (day-ahead
    forecast, real-time forecast), in that order. *)
Theorem real_time_forecast_zero self date hour bus horizon n_samples :
  (∀ i,
     TestingForecaster.forecast_real_time_prices self date hour bus horizon n_samples !! i
     = if decide (0 ≤ i < n_samples)
       then Some (replicate (Z.to_nat horizon) 0%Q) else None)
  ∧ (∀ i l,
       TestingForecaster.forecast_real_time_prices self date hour bus horizon n_samples !! i
         = Some l →
       ∀ x, x ∈ l → x = 0%Q)
  ∧ (∀ self',
       TestingForecaster.forecast_real_time_prices self' date hour bus horizon n_samples =
       TestingForecaster.forecast_real_time_prices self date hour bus horizon n_samples)
  ∧ TestingForecaster.forecast_day_ahead_and_real_time_prices
      self date hour bus horizon n_samples =
    (TestingForecaster.forecast_day_ahead_prices self date hour bus horizon n_samples,
     TestingForecaster.forecast_real_time_prices self date hour bus horizon n_samples).
Proof.
  assert (∀ i,
    TestingForecaster.forecast_real_time_prices self date hour bus horizon n_samples !! i
    = if decide (0 ≤ i < n_samples)
      then Some (replicate (Z.to_nat horizon) 0%Q) else None) as Hlook.
  { intros i.
    unfold TestingForecaster.forecast_real_time_prices, TestingForecaster._forecast.
    rewrite lookup_dict_comp.
    destruct (decide (i ∈ range n_samples)) as [Hi|Hi], (decide (0 ≤ i < n_samples)) as [Hi'|Hi'];
      try done.
    - by apply elem_of_range in Hi.
    - by apply elem_of_range in Hi'. }
  split; [done|]. split; [|done].
  intros i l. rewrite Hlook. case_decide; [|done].
  intros [= <-] x Hx. by apply elem_of_replicate in Hx as [-> _].
Qed.

(** ** Construction *)

Lemma __init___fields md self :
  TestingModel.__init__ (Thermal md) = Ok self →
  ∃ pair0 rest,
    p_cost md = pair0 :: rest
    ∧ self = TestingModel.mk md (gen_name md) [] (p_min md) (p_max md) (snd pair0).
Proof.
  simpl. intros [= <-]. by exists (p_cost_first md), (p_cost_rest md).
Qed.

(** C2: constructing TestingModel(model_data) raises a TypeError if and
    only if model_data is not an instance of ThermalGeneratorModelData;
    when it is such an instance, construction succeeds, no error is raised,
    and the object holds the descriptor as its model data. *)
Theorem __init___TypeError (model_data : pyobject) :
  ((∃ msg, TestingModel.__init__ model_data = Raise (TypeError msg))
   ↔ isinstance_Thermal model_data = false)
  ∧ ((∃ self, TestingModel.__init__ model_data = Ok self)
     ↔ isinstance_Thermal model_data = true)
  ∧ (∀ md, model_data = Thermal md →
       ∃ self, TestingModel.__init__ model_data = Ok self
               ∧ TestingModel.model_data self = md).
Proof.
  split; [|split].
  - destruct model_data as [md|v]; simpl.
    + split; [by intros [? ?]|done].
    + split; [done|]. by eexists.
  - destruct model_data as [md|v]; simpl.
    + split; [done|]. by eexists.
    + split; [by intros [? ?]|done].
  - intros md ->. simpl. by eexists.
Qed.

Lemma __init___TypeError_witness :
  ∃ self, TestingModel.__init__ (Thermal testing_model_data) = Ok self
          ∧ TestingModel.model_data self = testing_model_data.
Proof.
  apply (proj2 (proj2 (__init___TypeError (Thermal testing_model_data)))
           testing_model_data).
  reflexivity.
Defined.

(** ** populate_model *)

(** C7: for every horizon >= 0, populate_model builds a block whose HOUR
    set is exactly the time steps 0 .. horizon-1, with P_T defined at each
    of these steps (and at no other), initialised to p_min with bounds
    [p_min, p_max], and with pre_P_T initialised to p_min. *)
Theorem populate_model_block md self (horizon : Z) :
  TestingModel.__init__ (Thermal md) = Ok self → 0 ≤ horizon →
  let b := TestingModel.populate_model self horizon in
  NoDup (pyo.HOUR b)
  ∧ Z.of_nat (length (pyo.HOUR b)) = horizon
  ∧ (∀ t, t ∈ pyo.HOUR b ↔ 0 ≤ t < horizon)
  ∧ (∀ t, 0 ≤ t < horizon →
       pyo.P_T b !! t = Some (pyo.mkVar (p_min md) (p_min md) (p_max md)))
  ∧ (∀ t, is_Some (pyo.P_T b !! t) → 0 ≤ t < horizon)
  ∧ pyo.pre_P_T b = p_min md.
Proof.
  intros Hinit Hh. apply __init___fields in Hinit as (pair0 & rest & _ & ->). simpl.
  split; [apply NoDup_seqZ|]. split; [unfold range; rewrite length_seqZ; lia|].
  split; [apply elem_of_range|]. split; [|split; [|done]].
  - intros t Ht%elem_of_range. by rewrite lookup_dict_comp_range.
  - intros t. rewrite lookup_dict_comp, <- elem_of_range.
    case_decide; [done|]. by intros [? ?].
Qed.

Lemma populate_model_block_witness :
  let b := TestingModel.populate_model testing_model tracking_horizon in
  NoDup (pyo.HOUR b)
  ∧ Z.of_nat (length (pyo.HOUR b)) = tracking_horizon
  ∧ (∀ t, t ∈ pyo.HOUR b ↔ 0 ≤ t < tracking_horizon)
  ∧ (∀ t, 0 ≤ t < tracking_horizon →
       pyo.P_T b !! t = Some (pyo.mkVar 30 30 76))
  ∧ (∀ t, is_Some (pyo.P_T b !! t) → 0 ≤ t < tracking_horizon)
  ∧ pyo.pre_P_T b = 30%Q.
Proof.
  apply (populate_model_block testing_model_data testing_model tracking_horizon);
    [reflexivity | unfold tracking_horizon; lia].
Defined.

(** C5: for every block built by populate_model and every hour h of its
    HOUR set, the production-cost expression at h is the product of P_T[h]
    and the marginal cost, and evaluates to the current P_T[h] times the
    marginal cost of the model data (the cost of its first cost pair),
    their product as floats; the total-cost expression at h is the
    production-cost expression at h and evaluates as it does. *)
Theorem cost_expressions md self (horizon : Z) b h :
  TestingModel.__init__ (Thermal md) = Ok self →
  built_by self horizon b → h ∈ pyo.HOUR b →
  ∃ v pair0,
    pyo.P_T b !! h = Some v
    ∧ head (p_cost md) = Some pair0
    ∧ pyo.prod_cost_approx b !! h
      = Some (pyo.Product (pyo.Var_ h) (pyo.Param_ pyo.marginal_cost_))
    ∧ pyo.value b (pyo.Expression_ pyo.prod_cost_approx_ h)
      = Ok (fmul (pyo.var_value v) (snd pair0))
    ∧ pyo.tot_cost b !! h = Some (pyo.Expression_ pyo.prod_cost_approx_ h)
    ∧ pyo.value b (pyo.Expression_ pyo.tot_cost_ h)
      = pyo.value b (pyo.Expression_ pyo.prod_cost_approx_ h).
Proof.
  intros Hinit Hb%built_by_inv Hh.
  apply __init___fields in Hinit as (pair0 & rest & Hcost & Hself).
  destruct (inv_P_T_lookup _ _ _ Hb h Hh) as [v Hv].
  exists v, pair0. split; [done|]. split; [by rewrite Hcost|].
  assert (h ∈ range horizon) as Hr by (by rewrite <- (inv_HOUR _ _ _ Hb)).
  split; [by rewrite (inv_prod_cost_approx _ _ _ Hb), lookup_dict_comp_range|].
  split.
  - rewrite (value_prod_cost_approx _ _ _ Hb h v Hh Hv).
    rewrite (inv_marginal_cost _ _ _ Hb). by subst self.
  - split; [by rewrite (inv_tot_cost _ _ _ Hb), lookup_dict_comp_range|].
    by apply (value_tot_cost self horizon).
Qed.

Lemma cost_expressions_witness :
  let b := pyo.set_var_value
             (TestingModel.populate_model testing_model tracking_horizon) 1 45.3%Q in
  ∃ v pair0,
    pyo.P_T b !! 1 = Some v
    ∧ head (p_cost testing_model_data) = Some pair0
    ∧ pyo.prod_cost_approx b !! 1
      = Some (pyo.Product (pyo.Var_ 1) (pyo.Param_ pyo.marginal_cost_))
    ∧ pyo.value b (pyo.Expression_ pyo.prod_cost_approx_ 1)
      = Ok (fmul (pyo.var_value v) (snd pair0))
    ∧ pyo.tot_cost b !! 1 = Some (pyo.Expression_ pyo.prod_cost_approx_ 1)
    ∧ pyo.value b (pyo.Expression_ pyo.tot_cost_ 1)
      = pyo.value b (pyo.Expression_ pyo.prod_cost_approx_ 1).
Proof.
  apply (cost_expressions testing_model_data testing_model tracking_horizon).
  - reflexivity.
  - apply built_solve; [apply built_populate|].
    apply elem_of_range. unfold tracking_horizon. lia.
  - apply elem_of_range. unfold tracking_horizon. lia.
Defined.

(** ** update_model and the implemented profile *)

Lemma last_item_Ok (l : list Q) : l ≠ [] → ∃ x, last l = Some x ∧ last_item l = Ok x.
Proof.
  intros Hl. unfold last_item. destruct (last l) as [x|] eqn:E; [by exists x|].
  by apply last_None in E.
Qed.

(** C8: for every non-empty implemented_power_output list, update_model
    sets pre_P_T of the block to the last element of the list rounded to 2
    decimal places and changes no other component of the block; on an
    empty list it fails. *)
Theorem update_model_frame self b (implemented_power_output : list Q) :
  (implemented_power_output ≠ [] →
   ∃ x b',
     last implemented_power_output = Some x
     ∧ TestingModel.update_model self b implemented_power_output = Ok b'
     ∧ pyo.pre_P_T b' = round2 x
     ∧ pyo.HOUR b' = pyo.HOUR b
     ∧ pyo.Pmax b' = pyo.Pmax b
     ∧ pyo.Pmin b' = pyo.Pmin b
     ∧ pyo.marginal_cost b' = pyo.marginal_cost b
     ∧ pyo.P_T b' = pyo.P_T b
     ∧ pyo.prod_cost_approx b' = pyo.prod_cost_approx b
     ∧ pyo.tot_cost b' = pyo.tot_cost b)
  ∧ (implemented_power_output = [] →
     ∃ msg, TestingModel.update_model self b implemented_power_output
            = Raise (IndexError msg)).
Proof.
  unfold TestingModel.update_model, TestingModel._update_power. split.
  - intros (x & Hx & Hlast)%last_item_Ok. rewrite Hlast. simpl.
    exists x, (pyo.set_pre_P_T b (round2 x)). by repeat split.
  - intros ->. by eexists.
Qed.

Lemma update_model_frame_witness :
  let b := TestingModel.populate_model testing_model tracking_horizon in
  ∃ x b',
    last [30; 45.678]%Q = Some x
    ∧ TestingModel.update_model testing_model b [30; 45.678]%Q = Ok b'
    ∧ pyo.pre_P_T b' = round2 x
    ∧ pyo.HOUR b' = pyo.HOUR b
    ∧ pyo.Pmax b' = pyo.Pmax b
    ∧ pyo.Pmin b' = pyo.Pmin b
    ∧ pyo.marginal_cost b' = pyo.marginal_cost b
    ∧ pyo.P_T b' = pyo.P_T b
    ∧ pyo.prod_cost_approx b' = pyo.prod_cost_approx b
    ∧ pyo.tot_cost b' = pyo.tot_cost b.
Proof.
  apply (proj1 (update_model_frame testing_model
                  (TestingModel.populate_model testing_model tracking_horizon)
                  [30; 45.678]%Q)).
  discriminate.
Defined.

Lemma for_each_value_Var b (ts : list Z) :
  (∀ t, t ∈ ts → is_Some (pyo.P_T b !! t)) →
  ∃ l, for_each (λ t, pyo.value b (pyo.Var_ t)) ts = Ok l
       ∧ length l = length ts
       ∧ ∀ (i : nat) t, ts !! i = Some t →
           ∃ v, pyo.P_T b !! t = Some v ∧ l !! i = Some (pyo.var_value v).
Proof.
  induction ts as [|t ts IH]; intros Hdef.
  - exists []. by repeat split.
  - destruct (Hdef t) as [v Hv]; [left|].
    destruct IH as (l & Hl & Hlen & Hlook); [intros t' Ht'; apply Hdef; by right|].
    exists (pyo.var_value v :: l). simpl. rewrite value_Var, Hv. simpl. rewrite Hl. simpl.
    split; [done|]. split; [by rewrite Hlen|].
    intros [|i] t'; simpl.
    + intros [= <-]. by exists v.
    + apply Hlook.
Qed.

(** C9: for every block and every last_implemented_time_step k >= 0 with
    P_T defined at steps 0 .. k, get_implemented_profile returns a mapping
    with the single key implemented_power_output whose value is the
    sequence of the P_T values at steps 0 .. k (length k+1), and
    get_last_delivered_power(b, k) is the last element of that sequence. *)
Theorem implemented_profile b (k : Z) :
  0 ≤ k → (∀ t, 0 ≤ t ≤ k → is_Some (pyo.P_T b !! t)) →
  ∃ l x,
    TestingModel.get_implemented_profile b k = Ok {[ "implemented_power_output" := l ]}
    ∧ Z.of_nat (length l) = k + 1
    ∧ (∀ t, 0 ≤ t ≤ k →
         ∃ v, pyo.P_T b !! t = Some v ∧ l !! Z.to_nat t = Some (pyo.var_value v))
    ∧ last l = Some x
    ∧ TestingModel.get_last_delivered_power b k = Ok x.
Proof.
  intros Hk Hdef.
  destruct (for_each_value_Var b (range (k + 1))) as (l & Hl & Hlen & Hlook).
  { intros t Ht%elem_of_range. apply Hdef. lia. }
  assert (∀ t, 0 ≤ t ≤ k →
    ∃ v, pyo.P_T b !! t = Some v ∧ l !! Z.to_nat t = Some (pyo.var_value v)) as Hall.
  { intros t Ht. apply Hlook. unfold range. rewrite lookup_seqZ. split; lia. }
  unfold range in Hlen. rewrite length_seqZ in Hlen.
  destruct (Hall k) as (v & Hv & Hlv); [lia|].
  exists l, (pyo.var_value v).
  unfold TestingModel.get_implemented_profile, TestingModel.get_last_delivered_power.
  rewrite Hl, value_Var, Hv. simpl.
  split; [done|]. split; [lia|]. split; [done|]. split; [|done].
  rewrite last_lookup, <- Hlv. f_equal. lia.
Qed.

Lemma implemented_profile_witness :
  let b := TestingModel.populate_model testing_model tracking_horizon in
  ∃ l x,
    TestingModel.get_implemented_profile b 1 = Ok {[ "implemented_power_output" := l ]}
    ∧ Z.of_nat (length l) = 1 + 1
    ∧ (∀ t, 0 ≤ t ≤ 1 →
         ∃ v, pyo.P_T b !! t = Some v ∧ l !! Z.to_nat t = Some (pyo.var_value v))
    ∧ last l = Some x
    ∧ TestingModel.get_last_delivered_power b 1 = Ok x.
Proof.
  apply (implemented_profile
           (TestingModel.populate_model testing_model tracking_horizon) 1); [lia|].
  intros t Ht. simpl. rewrite lookup_dict_comp_range; [by eexists|].
  apply elem_of_range. unfold tracking_horizon. lia.
Defined.

(** ** Row dictionaries and frames *)

Lemma keys_dict_set k v d : keys (dict_set k v d) = pd.add_column (keys d) k.
Proof.
  unfold keys, pd.add_column. induction d as [|[k' v'] d IH].
  - simpl. destruct (decide (k ∈ [])) as [Hin|_]; [|done]. by apply elem_of_nil in Hin.
  - simpl dict_set. rewrite fmap_cons. simpl fst.
    destruct (decide (k' = k)) as [->|Hne].
    + rewrite fmap_cons. simpl fst. rewrite decide_True; [done|left].
    + rewrite fmap_cons, IH. simpl fst. destruct (decide (k ∈ d.*1)) as [Hin|Hin].
      * rewrite decide_True; [done|by right].
      * rewrite decide_False; [done|]. by intros [->|?]%elem_of_cons.
Qed.

Lemma keys_add_kwargs d kwargs :
  keys (add_kwargs d kwargs) = foldl pd.add_column (keys d) (keys kwargs).
Proof.
  unfold add_kwargs. revert d. induction kwargs as [|[k v] kwargs IH]; intros d; simpl.
  - done.
  - by rewrite IH, keys_dict_set.
Qed.

Lemma dict_get_dict_set k k' v d :
  dict_get k' (dict_set k v d) = if decide (k = k') then Some v else dict_get k' d.
Proof.
  induction d as [|[k0 v0] d IH]; simpl.
  - by destruct (decide (k = k')).
  - destruct (decide (k0 = k)) as [->|Hne]; simpl.
    + by destruct (decide (k = k')).
    + rewrite IH. destruct (decide (k0 = k')) as [->|?]; [|done].
      by rewrite decide_False.
Qed.

Lemma dict_get_add_kwargs k d kwargs :
  k ∉ keys kwargs → dict_get k (add_kwargs d kwargs) = dict_get k d.
Proof.
  unfold add_kwargs. revert d. induction kwargs as [|[k0 v0] kwargs IH]; intros d Hk; simpl.
  - done.
  - apply not_elem_of_cons in Hk as [Hne Hk]. rewrite IH by done.
    rewrite dict_get_dict_set. by rewrite decide_False.
Qed.

Lemma length_values d : length (values d) = length (keys d).
Proof. unfold values, keys. by rewrite !length_fmap. Qed.

Lemma cell_from_dict c d :
  pd.position c (keys d) ≫= (λ i, values d !! i) = dict_get c d.
Proof.
  induction d as [|[k v] d IH]; simpl; [done|].
  destruct (decide (k = c)) as [->|Hne]; simpl; [done|].
  rewrite <- IH. by destruct (pd.position c (keys d)).
Qed.

Lemma add_column_NoDup acc c : NoDup acc → NoDup (pd.add_column acc c).
Proof.
  intros Hnd. unfold pd.add_column. case_decide; [done|].
  apply NoDup_app. split; [done|]. split; [|apply NoDup_singleton].
  by intros x Hx ->%list_elem_of_singleton.
Qed.

Lemma foldl_add_column_NoDup_acc acc ks : NoDup acc → NoDup (foldl pd.add_column acc ks).
Proof.
  revert acc. induction ks as [|k ks IH]; intros acc Hnd; simpl; [done|].
  by apply IH, add_column_NoDup.
Qed.

Lemma foldl_add_column_known acc ks :
  (∀ k, k ∈ ks → k ∈ acc) → foldl pd.add_column acc ks = acc.
Proof.
  induction ks as [|k ks IH]; intros Hin; simpl; [done|].
  unfold pd.add_column at 2. rewrite decide_True by (apply Hin; left).
  apply IH. intros k' Hk'. apply Hin. by right.
Qed.

Lemma filter_ext_elem_of (P1 P2 : string → Prop)
    `{!∀ x, Decision (P1 x), !∀ x, Decision (P2 x)} (l : list string) :
  (∀ x, x ∈ l → P1 x ↔ P2 x) → filter P1 l = filter P2 l.
Proof.
  induction l as [|x l IH]; intros Hext; [done|].
  rewrite !filter_cons. rewrite IH by (intros y Hy; apply Hext; by right).
  destruct (decide (P1 x)) as [H1|H1], (decide (P2 x)) as [H2|H2]; try done.
  - by apply Hext in H1; [|left].
  - by apply Hext in H2; [|left].
Qed.

Lemma foldl_add_column_fresh acc ks :
  NoDup ks → foldl pd.add_column acc ks = (acc ++ filter (λ k, k ∉ acc) ks)%list.
Proof.
  revert acc. induction ks as [|k ks IH]; intros acc Hnd; simpl.
  - by rewrite app_nil_r.
  - apply NoDup_cons in Hnd as [Hk Hnd]. rewrite IH by done.
    unfold pd.add_column. rewrite filter_cons.
    destruct (decide (k ∈ acc)) as [Hin|Hin].
    + by rewrite decide_False by tauto.
    + rewrite decide_True by done. rewrite <- app_assoc. simpl. do 2 f_equal.
      apply filter_ext_elem_of. intros x Hx.
      rewrite elem_of_app, list_elem_of_singleton.
      split; [tauto|]. intros Hx' [?| ->]; done.
Qed.

Lemma filter_all (P : string → Prop) `{!∀ x, Decision (P x)} (l : list string) :
  (∀ x, x ∈ l → P x) → filter P l = l.
Proof.
  induction l as [|x l IH]; intros HP; [done|].
  rewrite filter_cons_True by (apply HP; left).
  f_equal. apply IH. intros y Hy. apply HP. by right.
Qed.

Lemma position_lookup (cols : list string) (i : nat) c :
  NoDup cols → cols !! i = Some c → pd.position c cols = Some i.
Proof.
  revert i. induction cols as [|c' cols IH]; intros i Hnd Hi; [done|].
  apply NoDup_cons in Hnd as [Hc' Hnd]. simpl.
  destruct i as [|i]; simpl in Hi.
  - injection Hi as ->. by rewrite decide_True.
  - rewrite decide_False.
    + by rewrite (IH i).
    + intros ->. apply Hc'. by eapply list_elem_of_lookup_2.
Qed.

Lemma reindex_same cols f :
  NoDup cols → frame_on cols f → pd.reindex cols f = pd.rows f.
Proof.
  intros Hnd [Hcols Hrows]. unfold pd.reindex. rewrite Hcols.
  induction Hrows as [|r rs Hr _ IH]; [done|].
  rewrite fmap_cons, IH. f_equal.
  apply list_eq. intros i. rewrite list_lookup_fmap.
  destruct (cols !! i) as [c|] eqn:Hc; simpl.
  - rewrite (position_lookup cols i c) by done.
    destruct (lookup_lt_is_Some_2 r i) as [x Hx].
    { rewrite Hr. by eapply lookup_lt_Some. }
    by rewrite Hx.
  - symmetry. apply lookup_ge_None. rewrite Hr. by apply lookup_ge_None.
Qed.

Lemma union_columns_same cols f fs :
  NoDup cols → Forall (frame_on cols) (f :: fs) → pd.union_columns (f :: fs) = cols.
Proof.
  intros Hnd Hfs. apply Forall_cons in Hfs as [[Hf _] Hfs].
  unfold pd.union_columns. rewrite fmap_cons. simpl mjoin. rewrite foldl_app.
  rewrite Hf. rewrite (foldl_add_column_fresh [] cols) by done. simpl.
  rewrite filter_all by (intros x _; apply not_elem_of_nil).
  apply foldl_add_column_known. intros k Hk.
  apply list_elem_of_join in Hk as (l & Hk & Hl).
  apply list_elem_of_fmap in Hl as (f' & -> & Hf').
  rewrite Forall_forall in Hfs. by rewrite (proj1 (Hfs f' Hf')) in Hk.
Qed.

Lemma concat_same_columns cols f fs :
  NoDup cols → Forall (frame_on cols) (f :: fs) →
  pd.concat (f :: fs) = Ok (pd.mk cols (mjoin (pd.rows <$> (f :: fs)))).
Proof.
  intros Hnd Hfs. unfold pd.concat. rewrite (union_columns_same cols) by done.
  do 3 f_equal. apply Forall_fmap_ext_1.
  eapply Forall_impl; [exact Hfs|]. intros f' Hf'. by apply reindex_same.
Qed.

Lemma for_each_Forall2 {A B : Type} (f : A → result B) (P : A → B → Prop) (l : list A) :
  (∀ x, x ∈ l → ∃ y, f x = Ok y ∧ P x y) →
  ∃ ys, for_each f l = Ok ys ∧ Forall2 P l ys.
Proof.
  induction l as [|x l IH]; intros Hf.
  - exists []. by split.
  - destruct (Hf x) as (y & Hy & HP); [left|].
    destruct IH as (ys & Hys & HF); [intros x' Hx'; apply Hf; by right|].
    exists (y :: ys). simpl. rewrite Hy. simpl. rewrite Hys. simpl.
    split; [done|]. by constructor.
Qed.

(** ** record_results *)

Lemma row_dict_sets g date hour t (power prod tot change : Q) :
  dict_set "Mileage [MW]" (PyFloat (float (round2 (Qabs change))))
    (dict_set "Total Cost [$]" (PyFloat (float (round2 tot)))
      (dict_set "Production Cost [$]" (PyFloat (float (round2 prod)))
        (dict_set "Thermal Power Generated [MW]" (PyFloat (float (round2 power)))
          (dict_set "Horizon [hr]" (PyInt t)
            (dict_set "Hour" hour
              (dict_set "Date" date
                (dict_set "Generator" (PyStr g) [])))))))
  = row_before_kwargs g date hour t power prod tot change.
Proof. reflexivity. Qed.

Lemma record_row_Ok self (horizon : Z) b date hour kwargs t :
  block_inv self horizon b → t ∈ pyo.HOUR b →
  ∃ pt prev,
    pyo.P_T b !! t = Some pt
    ∧ previous_power b t prev
    ∧ TestingModel.record_row self b date hour kwargs t =
      Ok (pd.from_dict_index_T
            (add_kwargs
               (row_before_kwargs (TestingModel.generator self) date hour t
                  (pyo.var_value pt)
                  (fmul (pyo.var_value pt) (pyo.marginal_cost b))
                  (fmul (pyo.var_value pt) (pyo.marginal_cost b))
                  (fsub (pyo.var_value pt) prev))
               kwargs)).
Proof.
  intros Hb Ht. destruct (inv_P_T_lookup _ _ _ Hb t Ht) as [pt Hpt].
  assert (∃ prev, previous_power b t prev ∧
    (if decide (t = 0)
     then pyo.value b (pyo.Difference (pyo.Var_ t) (pyo.Param_ pyo.pre_P_T_))
     else pyo.value b (pyo.Difference (pyo.Var_ t) (pyo.Var_ (t - 1))))
    = Ok (fsub (pyo.var_value pt) prev)) as (prev & Hprev & Hchange).
  { unfold previous_power. destruct (decide (t = 0)) as [->|Hne].
    - exists (pyo.pre_P_T b). split; [done|].
      by rewrite value_Difference, value_Var, Hpt, value_Param.
    - destruct (inv_P_T_lookup _ _ _ Hb (t - 1)) as [pp Hpp].
      { rewrite (inv_HOUR _ _ _ Hb) in *. apply elem_of_range in Ht.
        apply elem_of_range. lia. }
      exists (pyo.var_value pp). split; [by exists pp|].
      by rewrite value_Difference, !value_Var, Hpt, Hpp. }
  exists pt, prev. split; [done|]. split; [done|].
  unfold TestingModel.record_row.
  rewrite value_Var, Hpt, (value_tot_cost _ _ _ Hb t Ht).
  rewrite (value_prod_cost_approx _ _ _ Hb t pt Ht Hpt), Hchange.
  cbn [mbind result_bind]. by rewrite row_dict_sets.
Qed.

Lemma NoDup_recorded_columns kwargs : NoDup (recorded_columns kwargs).
Proof.
  apply foldl_add_column_NoDup_acc. unfold fixed_columns.
  by apply (bool_decide_unpack _).
Qed.

Lemma record_frame_Ok self (horizon : Z) b date hour kwargs :
  block_inv self horizon b → pyo.HOUR b ≠ [] →
  ∃ rows,
    TestingModel.record_frame self b date hour kwargs
      = Ok (pd.mk (recorded_columns kwargs) rows)
    ∧ rows_of_steps self b date hour kwargs rows.
Proof.
  intros Hb Hne. unfold TestingModel.record_frame, rows_of_steps.
  destruct (for_each_Forall2 (TestingModel.record_row self b date hour kwargs)
    (λ t df, ∃ pt prev,
       pyo.P_T b !! t = Some pt ∧ previous_power b t prev
       ∧ df = pd.mk (recorded_columns kwargs)
                [recorded_row self b date hour kwargs t (pyo.var_value pt) prev])
    (pyo.HOUR b)) as (dfs & Hdfs & HF).
  { intros t Ht. destruct (record_row_Ok self horizon b date hour kwargs t Hb Ht)
      as (pt & prev & Hpt & Hprev & Hrow).
    eexists. split; [exact Hrow|]. exists pt, prev. split; [done|]. split; [done|].
    unfold pd.from_dict_index_T, recorded_columns, recorded_row.
    by rewrite keys_add_kwargs. }
  rewrite Hdfs. cbn [mbind result_bind].
  assert (Forall (frame_on (recorded_columns kwargs)) dfs
          ∧ Forall2 (λ t row, ∃ pt prev,
               pyo.P_T b !! t = Some pt ∧ previous_power b t prev
               ∧ row = recorded_row self b date hour kwargs t (pyo.var_value pt) prev)
              (pyo.HOUR b) (mjoin (pd.rows <$> dfs))) as [Hon Hrows].
  { clear Hdfs Hne. induction HF as [|t df ts dfs (pt & prev & Hpt & Hprev & ->) _ [IH1 IH2]].
    - by split.
    - split.
      + constructor; [|done]. split; [done|]. constructor; [|done].
        unfold recorded_row, recorded_columns. rewrite length_values, keys_add_kwargs.
        done.
      + rewrite fmap_cons. simpl. constructor; [|done]. by exists pt, prev. }
  destruct dfs as [|df dfs].
  { apply Forall2_nil_inv_r in HF. done. }
  rewrite (concat_same_columns (recorded_columns kwargs)); [|apply NoDup_recorded_columns|done].
  by eexists.
Qed.

Lemma record_frame_inv self (horizon : Z) b date hour kwargs frame :
  block_inv self horizon b →
  TestingModel.record_frame self b date hour kwargs = Ok frame →
  pyo.HOUR b ≠ []
  ∧ ∃ rows, frame = pd.mk (recorded_columns kwargs) rows
            ∧ rows_of_steps self b date hour kwargs rows.
Proof.
  intros Hb Hframe. destruct (decide (pyo.HOUR b = [])) as [Hnil|Hne].
  - unfold TestingModel.record_frame in Hframe. by rewrite Hnil in Hframe.
  - split; [done|].
    destruct (record_frame_Ok self horizon b date hour kwargs Hb Hne) as (rows & Hrows & Hsteps).
    exists rows. split; [congruence|done].
Qed.

Lemma recorded_columns_keys g date hour t (power prod tot change : Q) kwargs :
  recorded_columns kwargs
  = keys (add_kwargs (row_before_kwargs g date hour t power prod tot change) kwargs).
Proof. by rewrite keys_add_kwargs. Qed.

Lemma cell_recorded_row self b date hour kwargs t pt prev rows c :
  pd.cell (pd.mk (recorded_columns kwargs) rows)
          (recorded_row self b date hour kwargs t pt prev) c
  = dict_get c
      (add_kwargs
         (row_before_kwargs (TestingModel.generator self) date hour t
            pt (fmul pt (pyo.marginal_cost b)) (fmul pt (pyo.marginal_cost b))
            (fsub pt prev))
         kwargs).
Proof.
  unfold pd.cell, recorded_row. simpl pd.columns.
  rewrite (recorded_columns_keys (TestingModel.generator self) date hour t
             pt (fmul pt (pyo.marginal_cost b)) (fmul pt (pyo.marginal_cost b))
             (fsub pt prev)).
  apply cell_from_dict.
Qed.

Lemma length_recorded_row self b date hour kwargs t pt prev :
  length (recorded_row self b date hour kwargs t pt prev)
  = length (recorded_columns kwargs).
Proof. unfold recorded_row. by rewrite length_values, keys_add_kwargs. Qed.

Lemma recorded_columns_fresh kwargs :
  NoDup (keys kwargs) →
  recorded_columns kwargs
  = (fixed_columns ++ filter (λ k, k ∉ fixed_columns) (keys kwargs))%list.
Proof. apply foldl_add_column_fresh. Qed.

(** C1, as stated, fails: the recorded mileage is rounded to 2 decimal
    places. With P_T[0] = 30.125 and pre_P_T = 30 the recorded value is
    0.12, not 0.125. A keyword field named like the column replaces the
    value altogether. *)
Lemma mileage_is_rounded :
  let b := pyo.set_var_value (TestingModel.populate_model testing_model 1) 0 30.125%Q in
  (∃ frame row pt m,
     TestingModel.record_frame testing_model b PyNone PyNone [] = Ok frame
     ∧ pd.rows frame !! 0%nat = Some row
     ∧ pyo.P_T b !! 0 = Some pt
     ∧ pd.cell frame row "Mileage [MW]" = Some (PyFloat m)
     ∧ ¬ (m == Qabs (pyo.var_value pt - pyo.pre_P_T b))%Q)
  ∧ (∃ frame row,
       TestingModel.record_frame testing_model b PyNone PyNone
         [("Mileage [MW]", PyStr "n/a")] = Ok frame
       ∧ pd.rows frame !! 0%nat = Some row
       ∧ pd.cell frame row "Mileage [MW]" = Some (PyStr "n/a")).
Proof.
  split.
  - eexists _, _, _, _. split; [by vm_compute|]. split; [done|].
    split; [by vm_compute|]. split; [by vm_compute|]. by vm_compute.
  - eexists _, _. split; [by vm_compute|]. split; [done|]. by vm_compute.
Qed.

(** C1, amended: for every block built by populate_model, every step t of
    its HOUR set and every call of record_results that passes no keyword
    field named like the mileage column, the mileage recorded in the row of
    step t is |P_T[0] - pre_P_T| when t = 0 and |P_T[t] - P_T[t-1]| when
    t > 0, the difference being the float difference of the current values
    of the block, short of an overflow, and the result rounded to 2 decimal
    places. *)
Theorem mileage_recorded self (horizon : Z) b date hour kwargs (t : Z) :
  built_by self horizon b → t ∈ pyo.HOUR b → "Mileage [MW]" ∉ keys kwargs →
  ∃ frame row pt,
    TestingModel.record_frame self b date hour kwargs = Ok frame
    ∧ pd.rows frame !! Z.to_nat t = Some row
    ∧ pyo.P_T b !! t = Some pt
    ∧ (t = 0 → fsub_finite (pyo.var_value pt) (pyo.pre_P_T b) →
       pd.cell frame row "Mileage [MW]"
       = Some (PyFloat (round2 (Qabs (fsub (pyo.var_value pt) (pyo.pre_P_T b))))))
    ∧ (0 < t →
       ∃ pp, pyo.P_T b !! (t - 1) = Some pp
             ∧ (fsub_finite (pyo.var_value pt) (pyo.var_value pp) →
                pd.cell frame row "Mileage [MW]"
                = Some (PyFloat
                          (round2 (Qabs (fsub (pyo.var_value pt) (pyo.var_value pp))))))).
Proof.
  intros Hb%built_by_inv Ht Hkw.
  destruct (record_frame_Ok self horizon b date hour kwargs Hb) as (rows & Hframe & Hsteps).
  { intros Hnil. rewrite Hnil in Ht. by apply elem_of_nil in Ht. }
  assert (pyo.HOUR b !! Z.to_nat t = Some t) as Hlook.
  { rewrite (inv_HOUR _ _ _ Hb) in *. apply elem_of_range in Ht.
    unfold range. rewrite lookup_seqZ. split; lia. }
  destruct (Forall2_lookup_l _ _ _ _ _ Hsteps Hlook)
    as (row & Hrow & pt & prev & Hpt & Hprev & ->).
  eexists (pd.mk (recorded_columns kwargs) rows), _, pt.
  split; [done|]. split; [exact Hrow|]. split; [done|].
  rewrite cell_recorded_row, dict_get_add_kwargs by done.
  unfold previous_power in Hprev. split.
  - intros -> _. simpl in Hprev. by subst prev.
  - intros Hpos. rewrite decide_False in Hprev by lia.
    destruct Hprev as (pp & Hpp & ->). by exists pp.
Qed.

Lemma mileage_recorded_witness :
  let b := pyo.set_var_value
             (TestingModel.populate_model testing_model tracking_horizon) 1 45.3%Q in
  ∃ frame row pt,
    TestingModel.record_frame testing_model b PyNone (PyInt 3) [("Scenario", PyInt 0)]
      = Ok frame
    ∧ pd.rows frame !! Z.to_nat 1 = Some row
    ∧ pyo.P_T b !! 1 = Some pt
    ∧ (1 = 0 → fsub_finite (pyo.var_value pt) (pyo.pre_P_T b) →
       pd.cell frame row "Mileage [MW]"
       = Some (PyFloat (round2 (Qabs (fsub (pyo.var_value pt) (pyo.pre_P_T b))))))
    ∧ (0 < 1 →
       ∃ pp, pyo.P_T b !! (1 - 1) = Some pp
             ∧ (fsub_finite (pyo.var_value pt) (pyo.var_value pp) →
                pd.cell frame row "Mileage [MW]"
                = Some (PyFloat
                          (round2 (Qabs (fsub (pyo.var_value pt) (pyo.var_value pp))))))).
Proof.
  apply (mileage_recorded testing_model tracking_horizon).
  - apply built_solve; [apply built_populate|].
    apply elem_of_range. unfold tracking_horizon. lia.
  - apply elem_of_range. unfold tracking_horizon. lia.
  - by apply (bool_decide_unpack _).
Defined.

Lemma rows_of_steps_frame_on self b date hour kwargs rows :
  rows_of_steps self b date hour kwargs rows →
  frame_on (recorded_columns kwargs) (pd.mk (recorded_columns kwargs) rows).
Proof.
  intros Hsteps. split; [done|]. simpl.
  induction Hsteps as [|t row ts rows (pt & prev & _ & _ & ->) _ IH]; constructor; [|done].
  apply length_recorded_row.
Qed.

Lemma record_results_inv self (horizon : Z) b date hour kwargs self' :
  block_inv self horizon b →
  TestingModel.record_results self b date hour kwargs = Ok self' →
  ∃ rows,
    TestingModel.record_frame self b date hour kwargs
      = Ok (pd.mk (recorded_columns kwargs) rows)
    ∧ rows_of_steps self b date hour kwargs rows
    ∧ TestingModel.result_list self'
      = (TestingModel.result_list self ++ [pd.mk (recorded_columns kwargs) rows])%list.
Proof.
  intros Hb Hrec. unfold TestingModel.record_results in Hrec.
  destruct (TestingModel.record_frame self b date hour kwargs) as [frame|e] eqn:Hframe;
    [|done].
  injection Hrec as <-.
  destruct (record_frame_inv self horizon b date hour kwargs frame Hb Hframe)
    as (_ & rows & -> & Hsteps).
  by exists rows.
Qed.

Lemma recorded_with_frames ks self :
  recorded_with ks self →
  Forall (frame_on (foldl pd.add_column fixed_columns ks)) (TestingModel.result_list self).
Proof.
  induction 1 as [self Hnil|self horizon b date hour kwargs self' _ IH Hb%built_by_inv <- Hrec].
  - by rewrite Hnil.
  - destruct (record_results_inv _ _ _ _ _ _ _ Hb Hrec) as (rows & _ & Hsteps & ->).
    apply Forall_app. split; [done|]. constructor; [|done].
    by eapply rows_of_steps_frame_on.
Qed.

(** C4: every frame of rows that record_results stores has the columns
    Generator, Date, Hour, Horizon [hr], Thermal Power Generated [MW],
    Production Cost [$], Total Cost [$], Mileage [MW], in that order,
    followed by the keyword fields that are not among these, with exactly
    one row per time step of the HOUR set of the block, in the order of the
    set; a frame is stored whenever the HOUR set is not empty; and when
    every call so far recorded with the same keyword fields, the table that
    write_results writes after the call has these columns as its header
    and the rows of all stored frames as its lines. *)
Theorem record_results_columns self (horizon : Z) b date hour kwargs :
  built_by self horizon b → NoDup (keys kwargs) →
  let cols := (fixed_columns ++ filter (λ k, k ∉ fixed_columns) (keys kwargs))%list in
  (pyo.HOUR b ≠ [] → ∃ frame, TestingModel.record_frame self b date hour kwargs = Ok frame)
  ∧ (∀ frame,
       TestingModel.record_frame self b date hour kwargs = Ok frame →
       pd.columns frame = cols
       ∧ length (pd.rows frame) = length (pyo.HOUR b)
       ∧ ∀ (i : nat) t, pyo.HOUR b !! i = Some t →
           ∃ row, pd.rows frame !! i = Some row
                  ∧ length row = length cols
                  ∧ ("Horizon [hr]" ∉ keys kwargs →
                     pd.cell frame row "Horizon [hr]" = Some (PyInt t)))
  ∧ (∀ self',
       recorded_with (keys kwargs) self →
       TestingModel.record_results self b date hour kwargs = Ok self' →
       ∃ frame,
         TestingModel.record_frame self b date hour kwargs = Ok frame
         ∧ TestingModel.result_list self' = (TestingModel.result_list self ++ [frame])%list
         ∧ TestingModel.write_results self'
           = Ok (cols, mjoin (pd.rows <$> TestingModel.result_list self'))).
Proof.
  intros Hbuilt Hnd cols. pose proof (built_by_inv _ _ _ Hbuilt) as Hb.
  assert (recorded_columns kwargs = cols) as Hcols by by apply recorded_columns_fresh.
  split; [|split].
  - intros Hne.
    destruct (record_frame_Ok self horizon b date hour kwargs Hb Hne) as (rows & -> & _).
    by eexists.
  - intros frame Hframe.
    destruct (record_frame_inv self horizon b date hour kwargs frame Hb Hframe)
      as (_ & rows & -> & Hsteps).
    split; [done|]. split; [symmetry; by eapply Forall2_length|].
    intros i t Hi.
    destruct (Forall2_lookup_l _ _ _ _ _ Hsteps Hi)
      as (row & Hrow & pt & prev & _ & _ & ->).
    eexists. split; [exact Hrow|]. split; [by rewrite length_recorded_row, Hcols|].
    intros Hkw. by rewrite cell_recorded_row, dict_get_add_kwargs.
  - intros self' Hself Hrec.
    assert (recorded_with (keys kwargs) self') as Hself'
      by (by eapply recorded_call).
    apply recorded_with_frames in Hself'. fold (recorded_columns kwargs) in Hself'.
    destruct (record_results_inv _ _ _ _ _ _ _ Hb Hrec) as (rows & Hframe & _ & Hlist).
    eexists. split; [exact Hframe|]. split; [done|].
    unfold TestingModel.write_results.
    destruct (TestingModel.result_list self') as [|f fs] eqn:E.
    { symmetry in Hlist. by apply app_nil in Hlist as [_ ?]. }
    rewrite (concat_same_columns (recorded_columns kwargs));
      [by rewrite Hcols|apply NoDup_recorded_columns|done].
Qed.

Lemma record_results_columns_witness :
  let self := testing_model in
  let b := TestingModel.populate_model testing_model tracking_horizon in
  let kwargs := [("Scenario", PyInt 0)] in
  let cols := (fixed_columns ++ filter (λ k, k ∉ fixed_columns) (keys kwargs))%list in
  (pyo.HOUR b ≠ [] →
   ∃ frame, TestingModel.record_frame self b PyNone (PyInt 3) kwargs = Ok frame)
  ∧ (∀ frame,
       TestingModel.record_frame self b PyNone (PyInt 3) kwargs = Ok frame →
       pd.columns frame = cols
       ∧ length (pd.rows frame) = length (pyo.HOUR b)
       ∧ ∀ (i : nat) t, pyo.HOUR b !! i = Some t →
           ∃ row, pd.rows frame !! i = Some row
                  ∧ length row = length cols
                  ∧ ("Horizon [hr]" ∉ keys kwargs →
                     pd.cell frame row "Horizon [hr]" = Some (PyInt t)))
  ∧ (∀ self',
       recorded_with (keys kwargs) self →
       TestingModel.record_results self b PyNone (PyInt 3) kwargs = Ok self' →
       ∃ frame,
         TestingModel.record_frame self b PyNone (PyInt 3) kwargs = Ok frame
         ∧ TestingModel.result_list self' = (TestingModel.result_list self ++ [frame])%list
         ∧ TestingModel.write_results self'
           = Ok (cols, mjoin (pd.rows <$> TestingModel.result_list self'))).
Proof.
  apply (record_results_columns testing_model tracking_horizon
           (TestingModel.populate_model testing_model tracking_horizon)
           PyNone (PyInt 3) [("Scenario", PyInt 0)]).
  - apply built_populate.
  - by apply (bool_decide_unpack _).
Defined.

(** * Further properties *)

(** ** Rounding *)

Lemma round_half_even_Qeq x y : (x == y)%Q → round_half_even x = round_half_even y.
Proof.
  intros H. unfold round_half_even.
  rewrite (Qfloor_comp x y H).
  by rewrite (Qcompare_comp (x - inject_Z (Qfloor y))%Q (y - inject_Z (Qfloor y))%Q
                (Qplus_comp _ _ H _ _ (Qeq_refl _)) (1 # 2)%Q (1 # 2)%Q (Qeq_refl _)).
Qed.

Lemma round2_Qeq x y : (x == y)%Q → round2 x = round2 y.
Proof.
  intros H. unfold round2. f_equal. apply round_half_even_Qeq.
  by apply Qmult_comp.
Qed.

Lemma round_half_even_nonneg x : (0 <= x)%Q → 0 ≤ round_half_even x.
Proof.
  intros Hx. pose proof (Qfloor_resp_le _ _ Hx) as Hf. change (Qfloor 0) with 0 in Hf.
  unfold round_half_even.
  destruct (Qcompare _ _); [destruct (Z.even _)| |]; lia.
Qed.

Lemma round2_nonneg x : (0 <= x)%Q → (0 <= round2 x)%Q.
Proof.
  intros Hx. unfold round2, Qle. simpl. rewrite Z.mul_1_r.
  apply round_half_even_nonneg.
  change (inject_Z 100) with (100 # 1)%Q. lra.
Qed.

Lemma round2_idempotent x : round2 (round2 x) = round2 x.
Proof.
  unfold round2 at 1 3. f_equal.
  set (z := round_half_even (x * inject_Z 100)).
  assert (round2 x * inject_Z 100 == inject_Z z)%Q as ->%round_half_even_Qeq.
  { unfold round2. fold z. rewrite (Qmake_Qdiv z 100).
    change (inject_Z (Z.pos 100)) with (inject_Z 100). field. }
  unfold round_half_even. rewrite Qfloor_Z.
  assert (inject_Z z - inject_Z z == 0)%Q as -> by ring. done.
Qed.

(** ** Edge cases of the horizon *)

Lemma range_nonpos (n : Z) : n ≤ 0 → range n = [].
Proof. intros Hn. unfold range, seqZ. by replace (Z.to_nat n) with 0%nat by lia. Qed.

(** X1: write_results on an object on which record_results has stored
    nothing yet, such as a newly constructed one, raises the ValueError of
    pd.concat on an empty list. *)
Theorem write_results_before_record md self :
  TestingModel.__init__ (Thermal md) = Ok self →
  TestingModel.write_results self = Raise (ValueError "No objects to concatenate").
Proof.
  intros Hinit. apply __init___fields in Hinit as (pair0 & rest & _ & ->). done.
Qed.

Lemma write_results_before_record_witness :
  TestingModel.write_results testing_model
  = Raise (ValueError "No objects to concatenate").
Proof.
  apply (write_results_before_record testing_model_data testing_model). reflexivity.
Defined.

(** X2: on a block built with a horizon <= 0 the HOUR set is empty and
    record_results raises the ValueError of pd.concat on an empty list; the
    object is left as it was. *)
Theorem record_results_empty_horizon self (horizon : Z) b date hour kwargs :
  built_by self horizon b → horizon ≤ 0 →
  pyo.HOUR b = []
  ∧ TestingModel.record_results self b date hour kwargs
    = Raise (ValueError "No objects to concatenate")
  ∧ TestingModel.after self (TestingModel.call_record_results b date hour kwargs) = self.
Proof.
  intros Hb%built_by_inv Hh.
  assert (pyo.HOUR b = []) as Hnil by (by rewrite (inv_HOUR _ _ _ Hb), range_nonpos).
  assert (TestingModel.record_results self b date hour kwargs
          = Raise (ValueError "No objects to concatenate")) as Hrec.
  { unfold TestingModel.record_results, TestingModel.record_frame. by rewrite Hnil. }
  split; [done|]. split; [done|]. simpl. by rewrite Hrec.
Qed.

Lemma record_results_empty_horizon_witness :
  let b := TestingModel.populate_model testing_model 0 in
  pyo.HOUR b = []
  ∧ TestingModel.record_results testing_model b PyNone (PyInt 3) []
    = Raise (ValueError "No objects to concatenate")
  ∧ TestingModel.after testing_model
      (TestingModel.call_record_results b PyNone (PyInt 3) []) = testing_model.
Proof.
  apply (record_results_empty_horizon testing_model 0); [apply built_populate | lia].
Defined.

(** X3: with n_samples <= 0 both forecasts are the empty mapping, and with
    horizon <= 0 every scenario of both forecasts is the empty list. *)
Theorem forecast_degenerate self date hour bus (horizon n_samples : Z) :
  (n_samples ≤ 0 →
   TestingForecaster.forecast_day_ahead_prices self date hour bus horizon n_samples = ∅
   ∧ TestingForecaster.forecast_real_time_prices self date hour bus horizon n_samples = ∅)
  ∧ (horizon ≤ 0 →
     ∀ i l,
       TestingForecaster.forecast_day_ahead_prices self date hour bus horizon n_samples !! i
         = Some l
       ∨ TestingForecaster.forecast_real_time_prices self date hour bus horizon n_samples !! i
         = Some l →
       l = []).
Proof.
  unfold TestingForecaster.forecast_day_ahead_prices,
    TestingForecaster.forecast_real_time_prices, TestingForecaster._forecast.
  split.
  - intros Hn. by rewrite range_nonpos.
  - intros Hh i l. replace (Z.to_nat horizon) with 0%nat by lia.
    rewrite !lookup_dict_comp. case_decide; intros [Hl|Hl]; by inversion Hl.
Qed.

Lemma forecast_degenerate_witness :
  (TestingForecaster.forecast_day_ahead_prices
     TestingForecaster.make_testing_forecaster PyNone PyNone PyNone 4 0 = ∅
   ∧ TestingForecaster.forecast_real_time_prices
       TestingForecaster.make_testing_forecaster PyNone PyNone PyNone 4 0 = ∅)
  ∧ (∀ i l,
       TestingForecaster.forecast_day_ahead_prices
         TestingForecaster.make_testing_forecaster PyNone PyNone PyNone (-1) 3 !! i = Some l
       ∨ TestingForecaster.forecast_real_time_prices
           TestingForecaster.make_testing_forecaster PyNone PyNone PyNone (-1) 3 !! i = Some l →
       l = []).
Proof.
  split.
  - apply (proj1 (forecast_degenerate TestingForecaster.make_testing_forecaster
                    PyNone PyNone PyNone 4 0)). lia.
  - apply (proj2 (forecast_degenerate TestingForecaster.make_testing_forecaster
                    PyNone PyNone PyNone (-1) 3)). lia.
Defined.

(** ** Updates of the previous power *)

(** X4: update_model depends only on the last element of the list; a later
    update overrides an earlier one; and feeding the stored pre_P_T back
    into update_model changes nothing, the stored value being rounded
    already. *)
Theorem update_model_last_wins self b (l1 l2 : list Q) b1 :
  TestingModel.update_model self b l1 = Ok b1 →
  TestingModel.update_model self b1 l2 = TestingModel.update_model self b l2
  ∧ TestingModel.update_model self b1 [pyo.pre_P_T b1] = Ok b1
  ∧ (∀ l x, TestingModel.update_model self b (l ++ [x])
            = TestingModel.update_model self b [x]).
Proof.
  unfold TestingModel.update_model, TestingModel._update_power.
  intros H1. destruct (last_item l1) as [x1|e] eqn:E1; [|done].
  injection H1 as <-. split; [|split].
  - by destruct (last_item l2).
  - simpl. by rewrite round2_idempotent.
  - intros l x. unfold last_item. by rewrite last_snoc.
Qed.

Lemma update_model_last_wins_witness :
  let b := TestingModel.populate_model testing_model tracking_horizon in
  let b1 := pyo.set_pre_P_T b (round2 45.678) in
  TestingModel.update_model testing_model b1 [60.7]%Q
  = TestingModel.update_model testing_model b [60.7]%Q
  ∧ TestingModel.update_model testing_model b1 [pyo.pre_P_T b1] = Ok b1
  ∧ (∀ l x, TestingModel.update_model testing_model b (l ++ [x])
            = TestingModel.update_model testing_model b [x]).
Proof.
  apply (update_model_last_wins testing_model
           (TestingModel.populate_model testing_model tracking_horizon)
           [30; 45.678]%Q [60.7]%Q).
  reflexivity.
Defined.

(** X5: the rolling step of a tracker. When P_T is defined at the steps
    0 .. k, the profile that get_implemented_profile returns is accepted by
    update_model, which sets pre_P_T to P_T[k] rounded to 2 decimal places
    and leaves the delivered power at k as it was. *)
Theorem update_with_implemented_profile self b (k : Z) :
  0 ≤ k → (∀ t, 0 ≤ t ≤ k → is_Some (pyo.P_T b !! t)) →
  ∃ l pk b',
    TestingModel.get_implemented_profile b k = Ok {[ "implemented_power_output" := l ]}
    ∧ pyo.P_T b !! k = Some pk
    ∧ TestingModel.update_model self b l = Ok b'
    ∧ pyo.pre_P_T b' = round2 (pyo.var_value pk)
    ∧ TestingModel.get_last_delivered_power b' k = Ok (pyo.var_value pk).
Proof.
  intros Hk Hdef.
  destruct (for_each_value_Var b (range (k + 1))) as (l & Hl & Hlen & Hlook).
  { intros t Ht%elem_of_range. apply Hdef. lia. }
  unfold range in Hlen. rewrite length_seqZ in Hlen.
  destruct (Hlook (Z.to_nat k) k) as (pk & Hpk & Hlk).
  { unfold range. rewrite lookup_seqZ. split; lia. }
  assert (last l = Some (pyo.var_value pk)) as Hlast.
  { rewrite last_lookup, <- Hlk. f_equal. lia. }
  exists l, pk, (pyo.set_pre_P_T b (round2 (pyo.var_value pk))).
  unfold TestingModel.get_implemented_profile, TestingModel.update_model,
    TestingModel._update_power, TestingModel.get_last_delivered_power, last_item.
  rewrite Hl, Hlast, value_Var. simpl. by rewrite Hpk.
Qed.

Lemma update_with_implemented_profile_witness :
  let b := pyo.set_var_value
             (TestingModel.populate_model testing_model tracking_horizon) 0 45.678%Q in
  ∃ l pk b',
    TestingModel.get_implemented_profile b 0 = Ok {[ "implemented_power_output" := l ]}
    ∧ pyo.P_T b !! 0 = Some pk
    ∧ TestingModel.update_model testing_model b l = Ok b'
    ∧ pyo.pre_P_T b' = round2 (pyo.var_value pk)
    ∧ TestingModel.get_last_delivered_power b' 0 = Ok (pyo.var_value pk).
Proof.
  apply (update_with_implemented_profile testing_model
           (pyo.set_var_value
              (TestingModel.populate_model testing_model tracking_horizon) 0 45.678%Q) 0);
    [lia|].
  intros t Ht. assert (t = 0) as -> by lia. vm_compute. by eexists.
Defined.

(** ** Indices outside the horizon *)

Lemma for_each_app_raise {A B : Type} (f : A → result B) l1 x l2 ys e :
  for_each f l1 = Ok ys → f x = Raise e → for_each f (l1 ++ x :: l2) = Raise e.
Proof.
  revert ys. induction l1 as [|a l1 IH]; intros ys Hl1 Hx; simpl.
  - by rewrite Hx.
  - simpl in Hl1. destruct (f a) as [y|e']; [|done]. simpl in *.
    destruct (for_each f l1) as [ys'|e'] eqn:E; [|done].
    by rewrite (IH ys').
Qed.

(** X6: on a block built for the steps 0 .. horizon-1,
    get_last_delivered_power returns exactly for an index among these steps
    and raises a KeyError for any other; get_implemented_profile returns the
    empty sequence for a negative index and raises the KeyError of the
    first step beyond the horizon for an index >= horizon. *)
Theorem profile_index_bounds self (horizon : Z) b (k : Z) :
  built_by self horizon b → 0 ≤ horizon →
  ((∃ x, TestingModel.get_last_delivered_power b k = Ok x) ↔ 0 ≤ k < horizon)
  ∧ (¬ 0 ≤ k < horizon →
     TestingModel.get_last_delivered_power b k = Raise (KeyError k))
  ∧ (k < 0 →
     TestingModel.get_implemented_profile b k
     = Ok {[ "implemented_power_output" := [] ]})
  ∧ (horizon ≤ k →
     TestingModel.get_implemented_profile b k = Raise (KeyError horizon)).
Proof.
  intros Hb%built_by_inv Hh.
  assert (∀ t, ¬ 0 ≤ t < horizon → pyo.P_T b !! t = None) as Hnone.
  { intros t Ht. apply eq_None_not_Some. rewrite (inv_P_T_dom _ _ _ Hb), elem_of_range.
    done. }
  assert (∀ t, 0 ≤ t < horizon → is_Some (pyo.P_T b !! t)) as Hsome.
  { intros t Ht. by apply (inv_P_T_dom _ _ _ Hb), elem_of_range. }
  unfold TestingModel.get_last_delivered_power, TestingModel.get_implemented_profile.
  split; [|split; [|split]].
  - rewrite value_Var. split.
    + intros [x Hx]. destruct (decide (0 ≤ k < horizon)) as [|Hk]; [done|].
      by rewrite (Hnone k Hk) in Hx.
    + intros Hk. destruct (Hsome k Hk) as [v ->]. by eexists.
  - intros Hk. by rewrite value_Var, (Hnone k Hk).
  - intros Hk. by rewrite range_nonpos by lia.
  - intros Hk.
    destruct (for_each_value_Var b (range horizon)) as (l & Hl & _).
    { intros t Ht%elem_of_range. by apply Hsome. }
    unfold range in *.
    replace (k + 1) with (horizon + (k + 1 - horizon)) by lia.
    rewrite seqZ_app by lia. rewrite (seqZ_cons (0 + horizon)) by lia.
    rewrite (for_each_app_raise _ _ _ _ l (KeyError horizon)); [done|done|].
    rewrite value_Var, Hnone by lia. f_equal.
Qed.

Lemma profile_index_bounds_witness :
  let b := TestingModel.populate_model testing_model tracking_horizon in
  ((∃ x, TestingModel.get_last_delivered_power b 4 = Ok x) ↔ 0 ≤ 4 < tracking_horizon)
  ∧ (¬ 0 ≤ 4 < tracking_horizon →
     TestingModel.get_last_delivered_power b 4 = Raise (KeyError 4))
  ∧ (4 < 0 →
     TestingModel.get_implemented_profile b 4
     = Ok {[ "implemented_power_output" := [] ]})
  ∧ (tracking_horizon ≤ 4 →
     TestingModel.get_implemented_profile b 4 = Raise (KeyError tracking_horizon)).
Proof.
  apply (profile_index_bounds testing_model tracking_horizon);
    [apply built_populate | unfold tracking_horizon; lia].
Defined.

(** ** The contents of the recorded rows *)

Lemma recorded_row_of_step self (horizon : Z) b date hour kwargs (t : Z) :
  block_inv self horizon b → t ∈ pyo.HOUR b →
  ∃ rows pt prev,
    TestingModel.record_frame self b date hour kwargs
      = Ok (pd.mk (recorded_columns kwargs) rows)
    ∧ rows !! Z.to_nat t
      = Some (recorded_row self b date hour kwargs t (pyo.var_value pt) prev)
    ∧ pyo.P_T b !! t = Some pt
    ∧ previous_power b t prev.
Proof.
  intros Hb Ht.
  destruct (record_frame_Ok self horizon b date hour kwargs Hb) as (rows & Hframe & Hsteps).
  { intros Hnil. rewrite Hnil in Ht. by apply elem_of_nil in Ht. }
  assert (pyo.HOUR b !! Z.to_nat t = Some t) as Hlook.
  { rewrite (inv_HOUR _ _ _ Hb) in *. apply elem_of_range in Ht.
    unfold range. rewrite lookup_seqZ. split; lia. }
  destruct (Forall2_lookup_l _ _ _ _ _ Hsteps Hlook)
    as (row & Hrow & pt & prev & Hpt & Hprev & ->).
  by exists rows, pt, prev.
Qed.

(** X7: when no keyword field is named like one of the eight fixed
    columns, the row that record_results stores for step t of a built block
    carries the generator name of the object, the date and hour passed, the
    step t, the power P_T[t] rounded to 2 decimal places, and, as both
    production and total cost, the float product of P_T[t] and the marginal
    cost of the object, short of an overflow, rounded to 2 decimal
    places. *)
Theorem recorded_row_contents self (horizon : Z) b date hour kwargs (t : Z) :
  built_by self horizon b → t ∈ pyo.HOUR b →
  (∀ k, k ∈ fixed_columns → k ∉ keys kwargs) →
  ∃ frame row pt,
    TestingModel.record_frame self b date hour kwargs = Ok frame
    ∧ pd.rows frame !! Z.to_nat t = Some row
    ∧ pyo.P_T b !! t = Some pt
    ∧ pd.cell frame row "Generator" = Some (PyStr (TestingModel.generator self))
    ∧ pd.cell frame row "Date" = Some date
    ∧ pd.cell frame row "Hour" = Some hour
    ∧ pd.cell frame row "Horizon [hr]" = Some (PyInt t)
    ∧ pd.cell frame row "Thermal Power Generated [MW]"
      = Some (PyFloat (round2 (pyo.var_value pt)))
    ∧ (fmul_finite (pyo.var_value pt) (TestingModel.marginal_cost self) →
       pd.cell frame row "Production Cost [$]"
       = Some (PyFloat
                 (round2 (fmul (pyo.var_value pt) (TestingModel.marginal_cost self))))
       ∧ pd.cell frame row "Total Cost [$]"
         = Some (PyFloat
                   (round2 (fmul (pyo.var_value pt) (TestingModel.marginal_cost self))))).
Proof.
  intros Hb%built_by_inv Ht Hkw.
  destruct (recorded_row_of_step self horizon b date hour kwargs t Hb Ht)
    as (rows & pt & prev & Hframe & Hrow & Hpt & _).
  eexists _, _, pt. split; [exact Hframe|]. split; [exact Hrow|]. split; [done|].
  rewrite !cell_recorded_row, (inv_marginal_cost _ _ _ Hb).
  repeat split; (rewrite dict_get_add_kwargs; [done|]); apply Hkw;
    by apply (bool_decide_unpack _).
Qed.

Lemma recorded_row_contents_witness :
  let b := pyo.set_var_value
             (TestingModel.populate_model testing_model tracking_horizon) 1 45.3%Q in
  ∃ frame row pt,
    TestingModel.record_frame testing_model b PyNone (PyInt 3) [("Scenario", PyInt 0)]
      = Ok frame
    ∧ pd.rows frame !! Z.to_nat 1 = Some row
    ∧ pyo.P_T b !! 1 = Some pt
    ∧ pd.cell frame row "Generator" = Some (PyStr (TestingModel.generator testing_model))
    ∧ pd.cell frame row "Date" = Some PyNone
    ∧ pd.cell frame row "Hour" = Some (PyInt 3)
    ∧ pd.cell frame row "Horizon [hr]" = Some (PyInt 1)
    ∧ pd.cell frame row "Thermal Power Generated [MW]"
      = Some (PyFloat (round2 (pyo.var_value pt)))
    ∧ (fmul_finite (pyo.var_value pt) (TestingModel.marginal_cost testing_model) →
       pd.cell frame row "Production Cost [$]"
       = Some (PyFloat
                 (round2 (fmul (pyo.var_value pt)
                            (TestingModel.marginal_cost testing_model))))
       ∧ pd.cell frame row "Total Cost [$]"
         = Some (PyFloat
                   (round2 (fmul (pyo.var_value pt)
                              (TestingModel.marginal_cost testing_model))))).
Proof.
  apply (recorded_row_contents testing_model tracking_horizon).
  - apply built_solve; [apply built_populate|].
    apply elem_of_range. unfold tracking_horizon. lia.
  - apply elem_of_range. unfold tracking_horizon. lia.
  - intros k Hk Hin. apply list_elem_of_singleton in Hin as ->.
    revert Hk. by apply (bool_decide_unpack _).
Defined.

Lemma dict_get_add_kwargs_item k v d kwargs :
  NoDup (keys kwargs) → (k, v) ∈ kwargs → dict_get k (add_kwargs d kwargs) = Some v.
Proof.
  unfold keys. revert d. induction kwargs as [|[k0 v0] kwargs IH]; intros d Hnd Hin.
  - by apply elem_of_nil in Hin.
  - rewrite fmap_cons in Hnd. apply NoDup_cons in Hnd as [Hk0 Hnd].
    apply elem_of_cons in Hin as [[= -> ->]|Hin].
    + change (add_kwargs d ((k0, v0) :: kwargs))
        with (add_kwargs (dict_set k0 v0 d) kwargs).
      rewrite dict_get_add_kwargs by done.
      rewrite dict_get_dict_set. by rewrite decide_True.
    + by apply IH.
Qed.

(** X8: every keyword field passed to record_results is stored with its
    value in every row of the frame, also when it is named like one of the
    eight fixed columns, whose value it then replaces. *)
Theorem keyword_fields_recorded self (horizon : Z) b date hour kwargs frame k v :
  built_by self horizon b → NoDup (keys kwargs) → (k, v) ∈ kwargs →
  TestingModel.record_frame self b date hour kwargs = Ok frame →
  k ∈ pd.columns frame
  ∧ ∀ row, row ∈ pd.rows frame → pd.cell frame row k = Some v.
Proof.
  intros Hb%built_by_inv Hnd Hin Hframe.
  destruct (record_frame_inv self horizon b date hour kwargs frame Hb Hframe)
    as (_ & rows & -> & Hsteps).
  assert (∀ row, row ∈ rows →
    pd.cell (pd.mk (recorded_columns kwargs) rows) row k = Some v) as Hcells.
  { intros row (i & Hi)%list_elem_of_lookup_1.
    destruct (Forall2_lookup_r _ _ _ _ _ Hsteps Hi)
      as (t & _ & pt & prev & _ & _ & ->).
    rewrite cell_recorded_row. by apply dict_get_add_kwargs_item. }
  split; [|done]. simpl.
  rewrite (recorded_columns_keys "" PyNone PyNone 0 0 0 0 0).
  assert (is_Some (dict_get k (add_kwargs
    (row_before_kwargs "" PyNone PyNone 0 0 0 0 0) kwargs))) as Hget
    by (by rewrite (dict_get_add_kwargs_item k v)).
  revert Hget. generalize (add_kwargs (row_before_kwargs "" PyNone PyNone 0 0 0 0 0) kwargs).
  intros d. unfold keys. induction d as [|[k' v'] d IH]; simpl; [by intros [? ?]|].
  destruct (decide (k' = k)) as [->|Hne]; [left|]. intros H. right. by apply IH.
Qed.

Lemma keyword_fields_recorded_witness :
  let b := TestingModel.populate_model testing_model 1 in
  let frame :=
    pd.mk [ "Generator"; "Date"; "Hour"; "Horizon [hr]"; "Thermal Power Generated [MW]";
            "Production Cost [$]"; "Total Cost [$]"; "Mileage [MW]"; "Scenario" ]
          [ [ PyStr "10_STEAM"; PyNone; PyStr "noon"; PyInt 0; PyFloat (round2 30);
              PyFloat (round2 (30 * 30)); PyFloat (round2 (30 * 30));
              PyFloat (round2 (Qabs (30 - 30))); PyInt 7 ] ] in
  "Hour" ∈ pd.columns frame
  ∧ ∀ row, row ∈ pd.rows frame → pd.cell frame row "Hour" = Some (PyStr "noon").
Proof.
  apply (keyword_fields_recorded testing_model 1
           (TestingModel.populate_model testing_model 1)
           PyNone (PyInt 3) [("Scenario", PyInt 7); ("Hour", PyStr "noon")]).
  - apply built_populate.
  - by apply (bool_decide_unpack _).
  - apply elem_of_cons. right. apply elem_of_cons. by left.
  - reflexivity.
Defined.

(** X9: when no keyword field is named like the mileage column, the
    mileage that record_results stores for a step of a built block is never
    negative, whichever way the power changed. *)
Theorem mileage_nonnegative self (horizon : Z) b date hour kwargs (t : Z) :
  built_by self horizon b → t ∈ pyo.HOUR b → "Mileage [MW]" ∉ keys kwargs →
  ∃ frame row m,
    TestingModel.record_frame self b date hour kwargs = Ok frame
    ∧ pd.rows frame !! Z.to_nat t = Some row
    ∧ pd.cell frame row "Mileage [MW]" = Some (PyFloat m)
    ∧ (0 <= m)%Q.
Proof.
  intros Hb%built_by_inv Ht Hkw.
  destruct (recorded_row_of_step self horizon b date hour kwargs t Hb Ht)
    as (rows & pt & prev & Hframe & Hrow & Hpt & Hprev).
  eexists _, _, _. split; [exact Hframe|]. split; [exact Hrow|].
  rewrite cell_recorded_row, dict_get_add_kwargs by done.
  split; [reflexivity|]. unfold float. apply round2_nonneg, Qabs_nonneg.
Qed.

Lemma mileage_nonnegative_witness :
  let b := pyo.set_var_value
             (TestingModel.populate_model testing_model tracking_horizon) 1 30.125%Q in
  ∃ frame row m,
    TestingModel.record_frame testing_model b PyNone (PyInt 3) [] = Ok frame
    ∧ pd.rows frame !! Z.to_nat 2 = Some row
    ∧ pd.cell frame row "Mileage [MW]" = Some (PyFloat m)
    ∧ (0 <= m)%Q.
Proof.
  apply (mileage_nonnegative testing_model tracking_horizon).
  - apply built_solve; [apply built_populate|].
    apply elem_of_range. unfold tracking_horizon. lia.
  - apply elem_of_range. unfold tracking_horizon. lia.
  - apply not_elem_of_nil.
Defined.

Lemma fsub_diag x : fsub x x = 0%Q.
Proof.
  unfold fsub. unfold double_round at 1.
  assert (Qeq_bool (double_round x - double_round x) 0 = true) as ->; [|done].
  apply Qeq_bool_iff. ring.
Qed.

(** X10: on a block as populate_model leaves it, before any value of P_T
    is written, a call of record_results that passes no keyword field named
    like the power column or the mileage column stores at every step the
    minimum power rounded to 2 decimal places and a mileage of 0. *)
Theorem populated_block_records self (horizon : Z) date hour kwargs (t : Z) :
  0 ≤ t < horizon →
  "Thermal Power Generated [MW]" ∉ keys kwargs → "Mileage [MW]" ∉ keys kwargs →
  ∃ frame row,
    TestingModel.record_frame self (TestingModel.populate_model self horizon)
      date hour kwargs = Ok frame
    ∧ pd.rows frame !! Z.to_nat t = Some row
    ∧ pd.cell frame row "Thermal Power Generated [MW]"
      = Some (PyFloat (round2 (TestingModel.pmin self)))
    ∧ pd.cell frame row "Mileage [MW]" = Some (PyFloat (0 # 100)).
Proof.
  intros Ht Hkw1 Hkw2.
  set (b := TestingModel.populate_model self horizon).
  assert (∀ h, 0 ≤ h < horizon →
    pyo.P_T b !! h
    = Some (pyo.mkVar (TestingModel.pmin self) (TestingModel.pmin self)
              (TestingModel.pmax self))) as Hvar.
  { intros h Hh. simpl. rewrite lookup_dict_comp_range; [done|]. by apply elem_of_range. }
  destruct (recorded_row_of_step self horizon b date hour kwargs t)
    as (rows & pt & prev & Hframe & Hrow & Hpt & Hprev).
  { apply populate_model_inv. }
  { by apply elem_of_range. }
  rewrite Hvar in Hpt by done. injection Hpt as <-.
  assert (prev = TestingModel.pmin self) as ->.
  { unfold previous_power in Hprev. destruct (decide (t = 0)); [done|].
    destruct Hprev as (pp & Hpp & ->). rewrite Hvar in Hpp by lia. by injection Hpp as <-. }
  eexists _, _. split; [exact Hframe|]. split; [exact Hrow|].
  rewrite !cell_recorded_row, !dict_get_add_kwargs by done. split; [done|].
  simpl. unfold float. by rewrite fsub_diag.
Qed.

Lemma populated_block_records_witness :
  ∃ frame row,
    TestingModel.record_frame testing_model
      (TestingModel.populate_model testing_model tracking_horizon)
      PyNone (PyInt 3) [] = Ok frame
    ∧ pd.rows frame !! Z.to_nat 2 = Some row
    ∧ pd.cell frame row "Thermal Power Generated [MW]"
      = Some (PyFloat (round2 (TestingModel.pmin testing_model)))
    ∧ pd.cell frame row "Mileage [MW]" = Some (PyFloat (0 # 100)).
Proof.
  apply (populated_block_records testing_model tracking_horizon PyNone (PyInt 3) [] 2).
  - unfold tracking_horizon. lia.
  - apply not_elem_of_nil.
  - apply not_elem_of_nil.
Defined.

(** ** The written table, whatever the calls *)

Lemma record_row_shape self b date hour kwargs t df :
  TestingModel.record_row self b date hour kwargs t = Ok df →
  frame_on (recorded_columns kwargs) df ∧ length (pd.rows df) = 1%nat.
Proof.
  unfold TestingModel.record_row.
  destruct (pyo.value b (pyo.Var_ t)) as [power|]; [|done].
  destruct (pyo.value b (pyo.Expression_ pyo.prod_cost_approx_ t)) as [prod|]; [|done].
  destruct (pyo.value b (pyo.Expression_ pyo.tot_cost_ t)) as [tot|]; [|done].
  cbn [mbind result_bind].
  destruct (if decide (t = 0)
            then pyo.value b (pyo.Difference (pyo.Var_ t) (pyo.Param_ pyo.pre_P_T_))
            else pyo.value b (pyo.Difference (pyo.Var_ t) (pyo.Var_ (t - 1))))
    as [change|]; [|done].
  cbn [mbind result_bind]. rewrite row_dict_sets. intros [= <-].
  unfold pd.from_dict_index_T, frame_on. simpl.
  rewrite <- (recorded_columns_keys (TestingModel.generator self) date hour t
                power prod tot change kwargs).
  split; [|done]. split; [done|]. constructor; [|done].
  by rewrite length_values, keys_add_kwargs.
Qed.

Lemma for_each_Forall {A B : Type} (f : A → result B) (P : B → Prop) l ys :
  (∀ x y, f x = Ok y → P y) → for_each f l = Ok ys →
  Forall P ys ∧ length ys = length l.
Proof.
  intros HP. revert ys. induction l as [|x l IH]; intros ys; simpl.
  - by intros [= <-].
  - destruct (f x) as [y|] eqn:Hy; [|done]. simpl.
    destruct (for_each f l) as [ys'|]; [|done]. simpl. intros [= <-].
    destruct (IH ys' eq_refl) as [HF Hlen]. split; [|by rewrite <- Hlen].
    constructor; [by eapply HP|done].
Qed.

Lemma rows_join_shape cols (dfs : list pd.DataFrame) :
  Forall (λ df, frame_on cols df ∧ length (pd.rows df) = 1%nat) dfs →
  Forall (λ r, length r = length cols) (mjoin (pd.rows <$> dfs))
  ∧ length (mjoin (pd.rows <$> dfs)) = length dfs.
Proof.
  induction 1 as [|df dfs [[_ Hrows] H1] _ [IH1 IH2]]; [by split|].
  rewrite fmap_cons. change (mjoin (pd.rows df :: (pd.rows <$> dfs)))
    with (pd.rows df ++ mjoin (pd.rows <$> dfs))%list.
  split.
  - by apply Forall_app.
  - rewrite length_app, H1, IH2. done.
Qed.

Lemma record_frame_shape self b date hour kwargs frame :
  TestingModel.record_frame self b date hour kwargs = Ok frame →
  frame_on (recorded_columns kwargs) frame
  ∧ length (pd.rows frame) = length (pyo.HOUR b).
Proof.
  unfold TestingModel.record_frame.
  destruct (for_each _ (pyo.HOUR b)) as [dfs|] eqn:Hdfs; [|done].
  cbn [mbind result_bind].
  apply (for_each_Forall _
    (λ df, frame_on (recorded_columns kwargs) df ∧ length (pd.rows df) = 1%nat))
    in Hdfs as [HF Hlen]; [|by intros t df; apply record_row_shape].
  destruct (rows_join_shape _ _ HF) as [Hrows Hcount].
  destruct dfs as [|df dfs]; [done|].
  rewrite (concat_same_columns (recorded_columns kwargs));
    [|apply NoDup_recorded_columns|by eapply Forall_impl; [exact HF|intros ? [? ?]]].
  intros Heq.
  assert (frame = pd.mk (recorded_columns kwargs) (mjoin (pd.rows <$> df :: dfs))) as ->
    by congruence.
  split; [by split|]. cbn [pd.rows]. by rewrite Hcount.
Qed.

Lemma foldl_add_column_prefix acc ks :
  ∃ extras, foldl pd.add_column acc ks = (acc ++ extras)%list
            ∧ ∀ k, k ∈ extras → k ∉ acc.
Proof.
  revert acc. induction ks as [|k ks IH]; intros acc; simpl.
  - exists []. split; [by rewrite app_nil_r|]. by intros k ?%elem_of_nil.
  - destruct (IH (pd.add_column acc k)) as (extras & -> & Hextras).
    unfold pd.add_column in *. destruct (decide (k ∈ acc)) as [Hin|Hin].
    + by exists extras.
    + exists (k :: extras). split; [by rewrite <- app_assoc|].
      intros k' [->|Hk']%elem_of_cons; [done|].
      intros Hacc. apply (Hextras k' Hk'). apply elem_of_app. by left.
Qed.

Lemma reached_frames self :
  reached self →
  Forall (λ f, ∃ kwargs, frame_on (recorded_columns kwargs) f)
         (TestingModel.result_list self).
Proof.
  induction 1 as [md self Hinit|self c _ IH].
  - apply __init___fields in Hinit as (pair0 & rest & _ & ->). constructor.
  - destruct c as [| | | | |b date hour kwargs| | |]; simpl; try done.
    unfold TestingModel.record_results.
    destruct (TestingModel.record_frame self b date hour kwargs) as [frame|] eqn:Hframe;
      [|done].
    simpl. apply Forall_app. split; [done|]. constructor; [|done].
    exists kwargs. by apply record_frame_shape in Hframe as [? _].
Qed.

Lemma union_columns_fixed f fs :
  Forall (λ f, ∃ kwargs, frame_on (recorded_columns kwargs) f) (f :: fs) →
  ∃ extras, pd.union_columns (f :: fs) = (fixed_columns ++ extras)%list
            ∧ ∀ k, k ∈ extras → k ∉ fixed_columns.
Proof.
  intros [(kwargs & Hcols & _) _]%Forall_cons.
  unfold pd.union_columns. rewrite fmap_cons. simpl mjoin. rewrite Hcols.
  unfold recorded_columns.
  destruct (foldl_add_column_prefix fixed_columns (keys kwargs)) as (e & -> & _).
  rewrite <- app_assoc, foldl_app.
  change (foldl pd.add_column [] fixed_columns) with fixed_columns.
  apply foldl_add_column_prefix.
Qed.

Lemma length_reindex cols fs :
  length (mjoin (pd.reindex cols <$> fs)) = length (mjoin (pd.rows <$> fs))
  ∧ Forall (λ line, length line = length cols) (mjoin (pd.reindex cols <$> fs)).
Proof.
  induction fs as [|f fs [IH1 IH2]]; [by split|].
  rewrite !fmap_cons. simpl. rewrite !length_app, IH1. split.
  - unfold pd.reindex. by rewrite length_fmap.
  - apply Forall_app. split; [|done]. unfold pd.reindex.
    apply Forall_fmap, Forall_true. intros r. simpl. by rewrite length_fmap.
Qed.

(** X11: on any object constructed and then used through any calls,
    write_results returns exactly when record_results has stored a frame;
    the header it writes is then the eight fixed columns, in their order,
    followed by columns that are none of these, and it writes one line per
    stored row, each with one cell per column of the header. *)
Theorem written_table self :
  reached self →
  ((∃ out, TestingModel.write_results self = Ok out)
   ↔ TestingModel.result_list self ≠ [])
  ∧ (∀ header lines,
       TestingModel.write_results self = Ok (header, lines) →
       (∃ extras, header = (fixed_columns ++ extras)%list
                  ∧ ∀ k, k ∈ extras → k ∉ fixed_columns)
       ∧ length lines = length (mjoin (pd.rows <$> TestingModel.result_list self))
       ∧ Forall (λ line, length line = length header) lines).
Proof.
  intros Hfs%reached_frames. unfold TestingModel.write_results.
  destruct (TestingModel.result_list self) as [|f fs]; simpl.
  - split; [|done]. split; [by intros [? ?]|done].
  - split; [split; [done|by eexists]|].
    intros header lines [= <- <-].
    destruct (length_reindex (pd.union_columns (f :: fs)) (f :: fs)) as [Hlen Hlines].
    split; [by apply union_columns_fixed|]. by split.
Qed.

Lemma written_table_witness :
  let b := TestingModel.populate_model testing_model tracking_horizon in
  let self :=
    TestingModel.after
      (TestingModel.after testing_model
         (TestingModel.call_record_results b PyNone (PyInt 0) []))
      (TestingModel.call_record_results b PyNone (PyInt 1) [("Scenario", PyInt 7)]) in
  ((∃ out, TestingModel.write_results self = Ok out)
   ↔ TestingModel.result_list self ≠ [])
  ∧ (∀ header lines,
       TestingModel.write_results self = Ok (header, lines) →
       (∃ extras, header = (fixed_columns ++ extras)%list
                  ∧ ∀ k, k ∈ extras → k ∉ fixed_columns)
       ∧ length lines = length (mjoin (pd.rows <$> TestingModel.result_list self))
       ∧ Forall (λ line, length line = length header) lines).
Proof.
  apply written_table.
  do 2 apply reached_call. by apply (reached_init testing_model_data).
Defined.

(** ** What an update changes in the records *)

Lemma dict_get_add_kwargs_ext c d1 d2 kwargs :
  dict_get c d1 = dict_get c d2 →
  dict_get c (add_kwargs d1 kwargs) = dict_get c (add_kwargs d2 kwargs).
Proof.
  unfold add_kwargs. revert d1 d2.
  induction kwargs as [|[k v] kwargs IH]; intros d1 d2 Hd; simpl; [done|].
  apply IH. rewrite !dict_get_dict_set. by case_decide.
Qed.

Lemma dict_get_row_before_kwargs c g date hour t (power prod tot change change' : Q) :
  c ≠ "Mileage [MW]" →
  dict_get c (row_before_kwargs g date hour t power prod tot change)
  = dict_get c (row_before_kwargs g date hour t power prod tot change').
Proof.
  intros Hc. unfold row_before_kwargs, dict_get.
  repeat (case_decide; [done|]). done.
Qed.

(** X12: update_model changes what record_results stores for a built block
    only in the mileage of step 0: the columns are the same, the rows of
    the later steps are the same, and in the row of step 0 every cell but
    the mileage is the same. *)
Theorem update_model_changes_first_mileage
    self (horizon : Z) b ipo b' date hour kwargs (t : Z) :
  built_by self horizon b → TestingModel.update_model self b ipo = Ok b' →
  t ∈ pyo.HOUR b →
  ∃ frame frame' row row',
    TestingModel.record_frame self b date hour kwargs = Ok frame
    ∧ TestingModel.record_frame self b' date hour kwargs = Ok frame'
    ∧ pd.columns frame' = pd.columns frame
    ∧ pd.rows frame !! Z.to_nat t = Some row
    ∧ pd.rows frame' !! Z.to_nat t = Some row'
    ∧ (0 < t → row' = row)
    ∧ (∀ c, c ≠ "Mileage [MW]" → pd.cell frame' row' c = pd.cell frame row c).
Proof.
  intros Hbuilt Hupd Ht.
  pose proof (built_by_inv _ _ _ Hbuilt) as Hb.
  pose proof (built_by_inv _ _ _ (built_update _ _ _ _ _ Hbuilt Hupd)) as Hb'.
  unfold TestingModel.update_model, TestingModel._update_power in Hupd.
  destruct (last_item ipo) as [x|]; [|done]. injection Hupd as <-.
  destruct (recorded_row_of_step self horizon b date hour kwargs t Hb Ht)
    as (rows & pt & prev & Hframe & Hrow & Hpt & Hprev).
  destruct (recorded_row_of_step self horizon _ date hour kwargs t Hb' Ht)
    as (rows' & pt' & prev' & Hframe' & Hrow' & Hpt' & Hprev').
  simpl in Hpt'. rewrite Hpt in Hpt'. injection Hpt' as <-.
  eexists _, _, _, _. split; [exact Hframe|]. split; [exact Hframe'|].
  split; [done|]. split; [exact Hrow|]. split; [exact Hrow'|]. split.
  - intros Hpos. unfold previous_power in *.
    rewrite decide_False in Hprev, Hprev' by lia.
    destruct Hprev as (pp & Hpp & ->), Hprev' as (pp' & Hpp' & ->).
    simpl in Hpp'. rewrite Hpp in Hpp'. by injection Hpp' as <-.
  - intros c Hc. rewrite !cell_recorded_row. apply dict_get_add_kwargs_ext.
    by apply dict_get_row_before_kwargs.
Qed.

Lemma update_model_changes_first_mileage_witness :
  let b := TestingModel.populate_model testing_model tracking_horizon in
  let b' := pyo.set_pre_P_T b (round2 45.678) in
  ∃ frame frame' row row',
    TestingModel.record_frame testing_model b PyNone (PyInt 3) [] = Ok frame
    ∧ TestingModel.record_frame testing_model b' PyNone (PyInt 3) [] = Ok frame'
    ∧ pd.columns frame' = pd.columns frame
    ∧ pd.rows frame !! Z.to_nat 0 = Some row
    ∧ pd.rows frame' !! Z.to_nat 0 = Some row'
    ∧ (0 < 0 → row' = row)
    ∧ (∀ c, c ≠ "Mileage [MW]" → pd.cell frame' row' c = pd.cell frame row c).
Proof.
  apply (update_model_changes_first_mileage testing_model tracking_horizon
           (TestingModel.populate_model testing_model tracking_horizon)
           [30; 45.678]%Q).
  - apply built_populate.
  - reflexivity.
  - apply elem_of_range. unfold tracking_horizon. lia.
Defined.

(** X13: on every block built by populate_model, whatever values have been
    written to P_T and whatever updates made since, the HOUR set, the
    parameters Pmax, Pmin and marginal_cost, the indices and the bounds of
    P_T and the two cost expressions are as populate_model set them; only
    the values of P_T and pre_P_T differ. *)
Theorem built_block_keeps_structure self (horizon : Z) b :
  built_by self horizon b →
  let b0 := TestingModel.populate_model self horizon in
  pyo.HOUR b = pyo.HOUR b0
  ∧ pyo.Pmax b = pyo.Pmax b0
  ∧ pyo.Pmin b = pyo.Pmin b0
  ∧ pyo.marginal_cost b = pyo.marginal_cost b0
  ∧ pyo.prod_cost_approx b = pyo.prod_cost_approx b0
  ∧ pyo.tot_cost b = pyo.tot_cost b0
  ∧ ∀ h, match pyo.P_T b !! h, pyo.P_T b0 !! h with
         | Some v, Some v0 => pyo.lb v = pyo.lb v0 ∧ pyo.ub v = pyo.ub v0
         | None, None => True
         | _, _ => False
         end.
Proof.
  intros Hb%built_by_inv. pose proof (populate_model_inv self horizon) as Hb0.
  intros b0. fold b0 in Hb0.
  split; [by rewrite (inv_HOUR _ _ _ Hb), (inv_HOUR _ _ _ Hb0)|].
  split; [by rewrite (inv_Pmax _ _ _ Hb), (inv_Pmax _ _ _ Hb0)|].
  split; [by rewrite (inv_Pmin _ _ _ Hb), (inv_Pmin _ _ _ Hb0)|].
  split; [by rewrite (inv_marginal_cost _ _ _ Hb), (inv_marginal_cost _ _ _ Hb0)|].
  split; [by rewrite (inv_prod_cost_approx _ _ _ Hb), (inv_prod_cost_approx _ _ _ Hb0)|].
  split; [by rewrite (inv_tot_cost _ _ _ Hb), (inv_tot_cost _ _ _ Hb0)|].
  intros h.
  pose proof (inv_P_T_dom _ _ _ Hb h) as Hd. pose proof (inv_P_T_dom _ _ _ Hb0 h) as Hd0.
  destruct (pyo.P_T b !! h) as [v|] eqn:E, (pyo.P_T b0 !! h) as [v0|] eqn:E0.
  - destruct (inv_P_T_bounds _ _ _ Hb h v E) as [-> ->].
    by destruct (inv_P_T_bounds _ _ _ Hb0 h v0 E0) as [-> ->].
  - assert (is_Some (@None pyo.VarData)) as [? ?]; [|done]. apply Hd0, Hd. by eexists.
  - assert (is_Some (@None pyo.VarData)) as [? ?]; [|done]. apply Hd, Hd0. by eexists.
  - done.
Qed.

Lemma built_block_keeps_structure_witness :
  let b0 := TestingModel.populate_model testing_model tracking_horizon in
  let b := pyo.set_pre_P_T (pyo.set_var_value b0 1 45.3%Q) (round2 45.678) in
  pyo.HOUR b = pyo.HOUR b0
  ∧ pyo.Pmax b = pyo.Pmax b0
  ∧ pyo.Pmin b = pyo.Pmin b0
  ∧ pyo.marginal_cost b = pyo.marginal_cost b0
  ∧ pyo.prod_cost_approx b = pyo.prod_cost_approx b0
  ∧ pyo.tot_cost b = pyo.tot_cost b0
  ∧ ∀ h, match pyo.P_T b !! h, pyo.P_T b0 !! h with
         | Some v, Some v0 => pyo.lb v = pyo.lb v0 ∧ pyo.ub v = pyo.ub v0
         | None, None => True
         | _, _ => False
         end.
Proof.
  apply (built_block_keeps_structure testing_model tracking_horizon).
  apply (built_update _ _
           (pyo.set_var_value
              (TestingModel.populate_model testing_model tracking_horizon) 1 45.3%Q)
           [30; 45.678]%Q); [|reflexivity].
  apply built_solve; [apply built_populate|].
  apply elem_of_range. unfold tracking_horizon. lia.
Defined.

(** ** The object through the calls *)

Lemma Stateful_for_each_record_row b date hour kwargs (l : list Z) self :
  Stateful.for_each (Stateful.record_row b date hour kwargs) l self
  = (self, for_each (TestingModel.record_row self b date hour kwargs) l).
Proof.
  induction l as [|t l IH]; [done|].
  change (Stateful.for_each (Stateful.record_row b date hour kwargs) (t :: l) self)
    with (match Stateful.record_row b date hour kwargs t self with
          | (self', Ok y) =>
              match Stateful.for_each (Stateful.record_row b date hour kwargs) l self' with
              | (self'', Ok ys) => (self'', Ok (y :: ys))
              | (self'', Raise e) => (self'', Raise e)
              end
          | (self', Raise e) => (self', Raise e)
          end).
  unfold Stateful.record_row at 1. simpl.
  destruct (TestingModel.record_row self b date hour kwargs t) as [y|e]; [|done].
  rewrite IH. simpl. by destruct (for_each _ l).
Qed.

Lemma Stateful_record_results b date hour kwargs self :
  Stateful.record_results b date hour kwargs self
  = match TestingModel.record_results self b date hour kwargs with
    | Ok self' => (self', Ok ())
    | Raise e => (self, Raise e)
    end.
Proof.
  unfold Stateful.record_results, TestingModel.record_results, TestingModel.record_frame.
  unfold mbind at 1 2, Stateful.M_bind.
  rewrite Stateful_for_each_record_row.
  destruct (for_each _ (pyo.HOUR b)) as [df_list|e]; [|done].
  simpl. unfold Stateful.pure. by destruct (pd.concat df_list).
Qed.

(** C6: after construction, record_results is the only method whose body
    changes the TestingModel object: run as programs over the object, all
    other calls leave it as it is, and a call of record_results appends
    exactly one entry to result_list when it returns, the frame of rows of
    the call, with the columns of the call and one row per step of the
    block, which it does on every built block with a non-empty HOUR set,
    and leaves the object as it is when it raises; generator, pmin, pmax,
    marginal_cost and model_data are unchanged by every call. *)
Theorem record_results_only_mutator self (c : TestingModel.call) :
  let self' := (Stateful.exec c self).1 in
  let out := (Stateful.exec c self).2 in
  (TestingModel.model_data self' = TestingModel.model_data self
   ∧ TestingModel.generator self' = TestingModel.generator self
   ∧ TestingModel.pmin self' = TestingModel.pmin self
   ∧ TestingModel.pmax self' = TestingModel.pmax self
   ∧ TestingModel.marginal_cost self' = TestingModel.marginal_cost self)
  ∧ self' = TestingModel.after self c
  ∧ match c with
    | TestingModel.call_record_results b date hour kwargs =>
        match TestingModel.record_frame self b date hour kwargs with
        | Ok frame =>
            out = Ok Stateful.RNone
            ∧ TestingModel.result_list self'
              = (TestingModel.result_list self ++ [frame])%list
            ∧ pd.columns frame = recorded_columns kwargs
            ∧ length (pd.rows frame) = length (pyo.HOUR b)
        | Raise e => out = Raise e ∧ self' = self
        end
        ∧ ∀ horizon : Z, built_by self horizon b → pyo.HOUR b ≠ [] →
            out = Ok Stateful.RNone
    | TestingModel.call_populate_model horizon =>
        self' = self
        ∧ out = Ok (Stateful.RBlock (TestingModel.populate_model self horizon))
    | _ => self' = self
    end.
Proof.
  destruct c as [|horizon|b ipo|b k|b k|b date hour kwargs| | |]; cbv zeta.
  - done.
  - done.
  - unfold Stateful.exec, Stateful.update_model, Stateful.pure, mbind, Stateful.M_bind.
    by destruct (TestingModel._update_power b ipo).
  - unfold Stateful.exec, Stateful.get_implemented_profile, Stateful.pure, mbind,
      Stateful.M_bind.
    by destruct (TestingModel.get_implemented_profile b k).
  - unfold Stateful.exec, Stateful.get_last_delivered_power, Stateful.pure, mbind,
      Stateful.M_bind.
    by destruct (TestingModel.get_last_delivered_power b k).
  - assert (Stateful.exec (TestingModel.call_record_results b date hour kwargs) self
            = match TestingModel.record_results self b date hour kwargs with
              | Ok self' => (self', Ok Stateful.RNone)
              | Raise e => (self, Raise e)
              end) as ->.
    { unfold Stateful.exec, mbind, Stateful.M_bind. rewrite Stateful_record_results.
      by destruct (TestingModel.record_results self b date hour kwargs). }
    unfold TestingModel.after, TestingModel.record_results.
    destruct (TestingModel.record_frame self b date hour kwargs) as [frame|e] eqn:Hframe.
    + unfold mbind, result_bind. simpl.
      split; [done|]. split; [done|]. split; [|done].
      destruct (record_frame_shape _ _ _ _ _ _ Hframe) as [[Hcols _] Hlen]. done.
    + unfold mbind, result_bind. simpl.
      split; [done|]. split; [done|]. split; [done|].
      intros horizon Hb%built_by_inv Hne.
      destruct (record_frame_Ok self horizon b date hour kwargs Hb Hne) as (rows & Hrows & _).
      congruence.
  - unfold Stateful.exec, Stateful.write_results, Stateful.getattr, Stateful.pure, mbind,
      Stateful.M_bind.
    by destruct (pd.concat (TestingModel.result_list self)).
  - done.
  - done.
Qed.

Lemma record_results_only_mutator_witness :
  (Stateful.exec
     (TestingModel.call_record_results
        (TestingModel.populate_model testing_model tracking_horizon)
        PyNone (PyInt 3) [("Scenario", PyInt 0)]) testing_model).2
  = Ok Stateful.RNone.
Proof.
  apply (proj2 (proj2 (proj2 (record_results_only_mutator testing_model
    (TestingModel.call_record_results
       (TestingModel.populate_model testing_model tracking_horizon)
       PyNone (PyInt 3) [("Scenario", PyInt 0)])))) tracking_horizon).
  - apply built_populate.
  - discriminate.
Defined.
